(** * The ArticleRewriter controller of [static/js/app.js]

    A shallow embedding of the client-side controller: the tab switcher,
    the notification and loading-overlay helpers, the two asynchronous
    workflows ([refreshBlogs], [fetchArticles]) and the table renderer.

    The controller object and the parts of the document it touches are one
    explicit state record; a method is a function in a state-and-exception
    monad, so that [try]/[catch]/[finally] read as in the script.  What the
    browser and the backend decide (whether [new URL] accepts a string, what
    a [fetch] answers) is an explicit [World] argument; what a selector
    matches once a tab id that is not literal in it has been spliced in is
    an explicit [Browser] argument.  The content of a table row is the
    markup assigned to its [innerHTML]; how that markup is parsed is not
    modelled.

    A handler is followed from the click to its completion: an [await]
    receives its answer at once.  Runs that overlap at an [await] are
    treated at the level of their [showLoading] and [hideLoading] calls
    (see [every_show_hidden]). *)

From Stdlib Require Import List String Ascii Bool Arith Lia DecimalString.
Import ListNotations.
Open Scope string_scope.

(* ================================================================== *)
(** * Tabs: the elements [switchTab] queries and restyles              *)
(* ================================================================== *)

Module Tabs.

(** An element of the document, as far as [switchTab] can observe it: its
    [id] and [href] attributes and its class list ([classList] is an ordered
    set of tokens). *)
Record Element : Type := mkElement {
  el_id : option string;
  el_href : option string;
  classList : list string
}.

(** The document, in tree order. *)
Definition Document : Type := list Element.

Definition with_classes (cs : list string) (e : Element) : Element :=
  {| el_id := el_id e; el_href := el_href e; classList := cs |}.

Definition contains (c : string) (cs : list string) : bool :=
  existsb (String.eqb c) cs.

(** [DOMTokenList.add]: append the token unless it is already there. *)
Definition token_add (c : string) (cs : list string) : list string :=
  if contains c cs then cs else cs ++ [c].

(** [DOMTokenList.remove]: drop the token. *)
Definition token_remove (c : string) (cs : list string) : list string :=
  filter (fun x => negb (String.eqb c x)) cs.

Definition has_class (c : string) (e : Element) : bool :=
  contains c (classList e).

Definition classList_add (c : string) (e : Element) : Element :=
  with_classes (token_add c (classList e)) e.

Definition classList_remove (c : string) (e : Element) : Element :=
  with_classes (token_remove c (classList e)) e.

(** Whether [e] is what a lookup of the id [i] may return: no element is
    found under the empty id. *)
Definition has_id (i : string) (e : Element) : bool :=
  match el_id e with
  | Some j => negb (String.eqb i "") && String.eqb i j
  | None => false
  end.

Definition has_href (h : string) (e : Element) : bool :=
  match el_href e with
  | Some j => String.eqb h j
  | None => false
  end.

(** Position of the first element that satisfies [p], in tree order. *)
Fixpoint find_index (p : Element -> bool) (d : Document) : option nat :=
  match d with
  | [] => None
  | e :: r => if p e then Some 0 else option_map S (find_index p r)
  end.

(** [document.getElementById(id)]: the first element with that id. *)
Definition getElementById (i : string) (d : Document) : option nat :=
  find_index (has_id i) d.

(** What a selector lookup gives: an element (by its position), nothing,
    or a [SyntaxError] when the selector is malformed. *)
Inductive Lookup : Type :=
  | Found (i : nat)
  | NotFound
  | SyntaxError.

(** Whether a lookup gave the position [i]. *)
Definition found_at (l : Lookup) (i : nat) : bool :=
  match l with
  | Found j => Nat.eqb j i
  | _ => false
  end.

(** How the browser reads the selector [`[href="#${tabId}"]`] on a document,
    for a [tabId] that the quoted string of the selector does not hold
    literally. *)
Definition Browser : Type := string -> Document -> Lookup.

(** The characters a double-quoted CSS string does not hold literally: the
    quote that ends it, the backslash that starts an escape, a line break,
    and the null character. *)
Definition literal_in_selector (c : ascii) : bool :=
  negb (Ascii.eqb c "034" || Ascii.eqb c "092" || Ascii.eqb c "010" ||
        Ascii.eqb c "012" || Ascii.eqb c "013" || Ascii.eqb c "000").

Fixpoint selector_safe (s : string) : bool :=
  match s with
  | EmptyString => true
  | String c r => literal_in_selector c && selector_safe r
  end.

(** [document.querySelector(`[href="#${tabId}"]`)].  The id is spliced into
    the selector as it is.  When every character of it is literal in the
    quoted string, the selector is the attribute selector for the href
    ["#" ++ tabId] and the lookup gives the first element with that href;
    otherwise the selector is whatever the splice makes of it (another
    selector, a selector list, or no selector at all), and the browser
    decides. *)
Definition querySelector_href (css : Browser) (tabId : string) (d : Document) : Lookup :=
  if selector_safe tabId
  then match find_index (has_href ("#" ++ tabId)) d with
       | Some i => Found i
       | None => NotFound
       end
  else css tabId d.

(** Mutating the element at a position. *)
Fixpoint update_at (n : nat) (f : Element -> Element) (d : Document) : Document :=
  match d, n with
  | [], _ => []
  | e :: r, 0 => f e :: r
  | e :: r, S m => e :: update_at m f r
  end.

(** Mutating the first element that satisfies [p]: what a lookup followed
    by a mutation of the element found comes to. *)
Fixpoint update_first (p : Element -> bool) (f : Element -> Element) (d : Document) : Document :=
  match d with
  | [] => []
  | e :: r => if p e then f e :: r else e :: update_first p f r
  end.

(** Dropping every token of [ts] at once. *)
Definition remove_all (ts : list string) (cs : list string) : list string :=
  filter (fun x => negb (contains x ts)) cs.


(** [document.querySelectorAll(sel).forEach(f)] for a class selector. *)
Definition forEach_class (c : string) (f : Element -> Element) (d : Document) : Document :=
  map (fun e => if has_class c e then f e else e) d.

Definition deactivate (e : Element) : Element :=
  classList_add "hover:bg-gray-50"
    (classList_add "text-gray-600"
      (classList_remove "text-blue-600"
        (classList_remove "bg-blue-50" e))).

Definition activate (e : Element) : Element :=
  classList_remove "hover:bg-gray-50"
    (classList_remove "text-gray-600"
      (classList_add "text-blue-600"
        (classList_add "bg-blue-50" e))).

(** The first steps of [switchTab(tabId)], up to the reset of the tab
    styles. *)
Definition reset_styles (tabId : string) (d : Document) : Document :=
  (* Hide all tab contents *)
  let d1 := forEach_class "tab-content" (classList_add "hidden") d in
  (* Show selected tab content *)
  let d2 := match getElementById tabId d1 with
            | Some i => update_at i (classList_remove "hidden") d1
            | None => d1
            end in
  (* Update tab styles *)
  forEach_class "tab-link" deactivate d2.

(** [switchTab(tabId)]: the document as the call leaves it.  With a selector
    that the browser rejects the call ends at the lookup, with a
    [SyntaxError] ([switchTab_throws]) and the tab styles reset. *)
Definition switchTab (css : Browser) (tabId : string) (d : Document) : Document :=
  let d3 := reset_styles tabId d in
  match querySelector_href css tabId d3 with
  | Found i => update_at i activate d3
  | NotFound => d3
  | SyntaxError => d3
  end.

Definition switchTab_throws (css : Browser) (tabId : string) (d : Document) : bool :=
  match querySelector_href css tabId (reset_styles tabId d) with
  | SyntaxError => true
  | _ => false
  end.

(** A content panel is visible when it does not carry the [hidden] class. *)
Definition is_panel (e : Element) : bool := has_class "tab-content" e.
Definition visible (e : Element) : bool := negb (has_class "hidden" e).

(** The visibility of each content panel, in tree order. *)
Definition panel_visibility (d : Document) : list bool :=
  map visible (filter is_panel d).

(** A tab id is known when a content panel carries it. *)
Definition known_tab (tabId : string) (d : Document) : bool :=
  existsb (fun e => is_panel e && has_id tabId e) d.

(** A small page: two panels, two tab links; [settings] is showing. *)
Definition sample_document : Document :=
  [ mkElement None (Some "#settings") ["tab-link"; "bg-blue-50"; "text-blue-600"];
    mkElement None (Some "#articles") ["tab-link"; "text-gray-600"; "hover:bg-gray-50"];
    mkElement (Some "settings") None ["tab-content"];
    mkElement (Some "articles") None ["tab-content"; "hidden"] ].

(** A tab id that does not stay literal in the selector: an [x], a quote,
    the text [],.text-gray-600,[x=] and a quote.  Spliced in, it gives a
    list of three selectors: the href ["#x"], the class [text-gray-600],
    and an attribute [x] with the empty value. *)
Definition spliced_id : string :=
  "x" ++ String "034" "],.text-gray-600,[x=" ++ String "034" "".

(** A tab id with which the selector is malformed: an [a], a quote and a
    [b].  The quote ends the string of the selector, and a name follows
    where the bracket should close. *)
Definition broken_id : string := "a" ++ String "034" "b".

(** A browser for the examples.  It reads the selector that [spliced_id]
    gives as the list it is: an element matches when its href is ["#x"] or
    it carries the class [text-gray-600] (the third alternative asks for an
    attribute [x], which no element of this model has).  To the other ids
    it answers [SyntaxError], as for the selector that [broken_id] gives;
    the examples ask it about these two ids only. *)
Definition sample_browser : Browser :=
  fun tabId d =>
    if String.eqb tabId spliced_id
    then match find_index (fun e => has_href "#x" e || has_class "text-gray-600" e) d with
         | Some i => Found i
         | None => NotFound
         end
    else SyntaxError.


(** One pass over the document that does what the four passes of
    [switchTab] do; [seen_id] and [seen_href] tell whether the first element
    with the id, or with the href, is already behind. *)
Definition restyle (first_id first_href : bool) (e : Element) : Element :=
  let e1 := if has_class "tab-content" e then classList_add "hidden" e else e in
  let e2 := if first_id then classList_remove "hidden" e1 else e1 in
  let e3 := if has_class "tab-link" e2 then deactivate e2 else e2 in
  if first_href then activate e3 else e3.

(** [restyle] on the class list alone. *)
Definition deactivate_tokens (l : list string) : list string :=
  token_add "hover:bg-gray-50"
    (token_add "text-gray-600"
      (token_remove "text-blue-600" (token_remove "bg-blue-50" l))).

Definition activate_tokens (l : list string) : list string :=
  token_remove "hover:bg-gray-50"
    (token_remove "text-gray-600"
      (token_add "text-blue-600" (token_add "bg-blue-50" l))).

Definition restyle_tokens (first_id first_href : bool) (l : list string) : list string :=
  let l1 := if contains "tab-content" l then token_add "hidden" l else l in
  let l2 := if first_id then token_remove "hidden" l1 else l1 in
  let l3 := if contains "tab-link" l2 then deactivate_tokens l2 else l2 in
  if first_href then activate_tokens l3 else l3.

Fixpoint one_pass (tabId : string) (seen_id seen_href : bool) (d : Document) : Document :=
  match d with
  | [] => []
  | e :: r =>
      restyle (negb seen_id && has_id tabId e)
              (negb seen_href && has_href ("#" ++ tabId) e) e
      :: one_pass tabId (seen_id || has_id tabId e)
                  (seen_href || has_href ("#" ++ tabId) e) r
  end.

End Tabs.

(* ================================================================== *)
(** * The controller, the document regions it owns, and the world      *)
(* ================================================================== *)

Module App.

(** ** Data *)

(** An article as the backend sends it ([schedule] and [rewritten] are
    optional fields; [rewritten] holds the rewritten content). *)
Record Article : Type := mkArticle {
  art_id : string;
  title : string;
  content : string;
  schedule : option string;
  rewritten : option string
}.

(** An entry of [blogs] whose properties can be read: [blog_id] and
    [blog_name] are the strings that the assignments of [blog.id] to
    [option.value] and of [blog.name] to [option.textContent] give. *)
Record Blog : Type := mkBlog {
  blog_id : string;
  blog_name : string
}.

(** The [blogs] field of a body as [refreshBlogs] reads it: falsy (absent,
    [null], [false], [0] or the empty string), an array, or some other
    truthy value, which has no [forEach] to call.  An entry of the array is
    a [Blog], or [null] ([None]), whose [id] cannot be read. *)
Inductive BlogsField : Type :=
  | BlogsMissing
  | BlogsArray (entries : list (option Blog))
  | BlogsNotArray.

(** A parsed response body, as far as the workflows read it: the fields
    [error], [blogs] and [articles].  A body that is the JSON value [null]
    is kept apart, since reading a field of it throws; every other body
    without these fields reads like the empty object.  [error] is a string
    and [articles] a list of article objects when present; other types of
    these two are not part of this model. *)
Record Body : Type := mkBody {
  error : option string;
  blogs : BlogsField;
  body_articles : option (list Article)
}.

Inductive Json : Type :=
  | JsonNull
  | JsonObject (b : Body).

(** What [response.json()] settles to. *)
Inductive JsonResult : Type :=
  | NotJson (message : string)
  | Parsed (data : Json).

(** What [fetch] settles to: it rejects on a network failure, and resolves
    with a response (whatever its status) otherwise. *)
Inductive Reply : Type :=
  | Rejected (message : string)
  | Response (ok : bool) (json : JsonResult).

Inductive RequestBody : Type :=
  | ApiKeyBody (api_key : string)
  | SitemapBody (sitemap_url : string).

Record Request : Type := mkRequest {
  url : string;
  method : string;
  body : RequestBody
}.

(** What the browser and the backend decide. *)
Record World : Type := mkWorld {
  (** whether [new URL(s)] returns (it throws otherwise) *)
  URL_parses : string -> bool;
  (** [window.location.origin] *)
  origin : string;
  (** the answer to a request *)
  answer : Request -> Reply;
  (** the engine's wording of the TypeError for reading a property of
      [null] *)
  null_property_message : string -> string;
  (** the engine's wording of the TypeError for calling what is not a
      function *)
  not_a_function_message : string -> string
}.

(** ** Document regions *)

Record Notification : Type := mkNotification {
  textContent : string;
  className : string
}.

Record BlogOption : Type := mkBlogOption {
  option_value : string;
  option_text : string
}.

(** A row of the table: its class list, its [data-id], and the markup
    assigned to its [innerHTML]. *)
Record Row : Type := mkRow {
  row_classes : list string;
  dataset_id : string;
  innerHTML : string
}.

(** Calls that leave no mark in the document. *)
Inductive Event : Type :=
  | Call_showLoading (message : string)
  | Call_hideLoading
  | Call_fetch (r : Request)
  | Call_console_error (message : string).

(** The controller's fields ([apiKey], [articles]) and the regions of the
    document the methods read and write.  A region that the page may lack
    is an [option].  [overlays] are the [#loadingOverlay] elements of the
    body and [notifications] the notification elements appended to it, both
    in document order; the timer that removes a notification after 3000 ms
    is not modelled, so [notifications] lists every notification shown.
    [trace] records the calls of the methods and of [fetch]. *)
Record State : Type := mkState {
  apiKey : string;
  articles : list Article;
  apiKeyInput : option string;
  sitemapUrlInput : option string;
  blogSelect : option (list BlogOption);
  tbody : option (list Row);
  overlays : list string;
  notifications : list Notification;
  trace : list Event
}.

Definition set_apiKey (v : string) (s : State) : State :=
  mkState v (articles s) (apiKeyInput s) (sitemapUrlInput s) (blogSelect s)
          (tbody s) (overlays s) (notifications s) (trace s).

Definition set_articles (v : list Article) (s : State) : State :=
  mkState (apiKey s) v (apiKeyInput s) (sitemapUrlInput s) (blogSelect s)
          (tbody s) (overlays s) (notifications s) (trace s).

Definition set_blogSelect (v : option (list BlogOption)) (s : State) : State :=
  mkState (apiKey s) (articles s) (apiKeyInput s) (sitemapUrlInput s) v
          (tbody s) (overlays s) (notifications s) (trace s).

Definition set_tbody (v : option (list Row)) (s : State) : State :=
  mkState (apiKey s) (articles s) (apiKeyInput s) (sitemapUrlInput s) (blogSelect s)
          v (overlays s) (notifications s) (trace s).

Definition set_overlays (v : list string) (s : State) : State :=
  mkState (apiKey s) (articles s) (apiKeyInput s) (sitemapUrlInput s) (blogSelect s)
          (tbody s) v (notifications s) (trace s).

Definition set_notifications (v : list Notification) (s : State) : State :=
  mkState (apiKey s) (articles s) (apiKeyInput s) (sitemapUrlInput s) (blogSelect s)
          (tbody s) (overlays s) v (trace s).

Definition log_call (e : Event) (s : State) : State :=
  mkState (apiKey s) (articles s) (apiKeyInput s) (sitemapUrlInput s) (blogSelect s)
          (tbody s) (overlays s) (notifications s) (trace s ++ [e]).

(** ** Computations that read and write the state and may throw *)

(** A thrown value; every throw of the script is an [Error] with a
    message, and so are the rejections of the runtime. *)
Record Exn : Type := Error { message : string }.

Inductive Outcome (A : Type) : Type :=
  | Normal (a : A)
  | Thrown (e : Exn).
Arguments Normal {A} a.
Arguments Thrown {A} e.

Definition M (A : Type) : Type := State -> Outcome A * State.

Definition ret {A} (a : A) : M A := fun s => (Normal a, s).

Definition bind {A B} (m : M A) (k : A -> M B) : M B :=
  fun s => match m s with
           | (Normal a, s') => k a s'
           | (Thrown e, s') => (Thrown e, s')
           end.

Definition throw {A} (e : Exn) : M A := fun s => (Thrown e, s).

Definition gets {A} (f : State -> A) : M A := fun s => (Normal (f s), s).

Definition modify (f : State -> State) : M unit := fun s => (Normal tt, f s).

(** [try { m } catch (e) { h e }] *)
Definition try_catch {A} (m : M A) (h : Exn -> M A) : M A :=
  fun s => match m s with
           | (Normal a, s') => (Normal a, s')
           | (Thrown e, s') => h e s'
           end.

(** [try { m } finally { f }]: [f] runs on every exit of [m]; the outcome
    is that of [m] unless [f] itself throws. *)
Definition try_finally {A} (m : M A) (f : M unit) : M A :=
  fun s => match m s with
           | (o, s') => match f s' with
                        | (Normal _, s'') => (o, s'')
                        | (Thrown e, s'') => (Thrown e, s'')
                        end
           end.

Declare Scope js_scope.
Delimit Scope js_scope with js.
Notation "x <- m ;; k" := (bind m (fun x => k))
  (at level 61, m at next level, right associativity) : js_scope.
Notation "m ;; k" := (bind m (fun _ => k))
  (at level 61, right associativity) : js_scope.
Open Scope js_scope.

(** The state a computation ends in. *)
Definition exec {A} (m : M A) (s : State) : State := snd (m s).

(** [a || b] on strings: the empty string is falsy. *)
Definition or_else (a : option string) (b : string) : string :=
  match a with
  | Some x => if String.eqb x "" then b else x
  | None => b
  end.

(** ** Methods *)

Definition notification_class (type : string) : string :=
  "fixed bottom-4 right-4 px-6 py-3 rounded-lg text-white " ++
  (if String.eqb type "error" then "bg-red-500"
   else if String.eqb type "success" then "bg-green-500"
   else "bg-blue-500").

(** [showNotification(message, type)] *)
Definition showNotification (message type : string) : M unit :=
  modify (fun s =>
    set_notifications
      (notifications s ++ [mkNotification message (notification_class type)]) s).

(** [showLoading(message)]: a new [#loadingOverlay] element is appended to
    the body (and the call is noted in the trace). *)
Definition showLoading (message : string) : M unit :=
  modify (fun s =>
    set_overlays (overlays s ++ [message]) (log_call (Call_showLoading message) s)).

(** [hideLoading()]: the first [#loadingOverlay] element, if there is one,
    is removed (and the call is noted in the trace). *)
Definition hideLoading : M unit :=
  modify (fun s =>
    let s' := log_call Call_hideLoading s in
    match overlays s' with
    | [] => s'
    | _ :: rest => set_overlays rest s'
    end).

Definition quote : string := String "034" "".
Definition newline : string := String "010" "".

(** The template literal assigned to [row.innerHTML], with the two texts
    it interpolates.  They are spliced into the markup as they are. *)
Definition row_markup (title_text schedule_text : string) : string :=
  newline ++
  "                <td class=" ++ quote ++
  "px-6 py-4 whitespace-nowrap text-sm text-gray-900" ++ quote ++ ">" ++
  title_text ++ "</td>" ++ newline ++
  "                <td class=" ++ quote ++
  "px-6 py-4 whitespace-nowrap text-sm text-gray-500" ++ quote ++ ">" ++
  schedule_text ++ "</td>" ++ newline ++
  "                <td class=" ++ quote ++ "px-6 py-4 whitespace-nowrap" ++ quote ++ ">" ++
  newline ++
  "                    <span class=" ++ quote ++
  "status px-2 inline-flex text-xs leading-5 font-semibold rounded-full bg-yellow-100 text-yellow-800" ++
  quote ++ ">" ++ newline ++
  "                        Pending" ++ newline ++
  "                    </span>" ++ newline ++
  "                </td>" ++ newline ++
  "            ".

(** The row [updateArticlesTable] builds for an article. *)
Definition render_row (article : Article) : Row :=
  {| row_classes := ["article-row"; "hover:bg-gray-50"; "cursor-pointer"];
     dataset_id := art_id article;
     innerHTML :=
       row_markup (title article) (or_else (schedule article) "Not scheduled") |}.

(** [updateArticlesTable()] *)
Definition updateArticlesTable : M unit :=
  modify (fun s =>
    match tbody s with
    | None => s
    | Some _ => set_tbody (Some (map render_row (articles s))) s
    end).

(** [classList.toggle(c)] on a row. *)
Definition toggle_class (c : string) (r : Row) : Row :=
  {| row_classes :=
       if existsb (String.eqb c) (row_classes r)
       then filter (fun x => negb (String.eqb c x)) (row_classes r)
       else row_classes r ++ [c];
     dataset_id := dataset_id r;
     innerHTML := innerHTML r |}.

(** [toggleArticleSelection(row)] *)
Definition toggleArticleSelection (r : Row) : Row :=
  toggle_class "bg-blue-50" (toggle_class "selected" r).

(** [await fetch(url, {method: 'POST', ..., body})] *)
Definition fetch (w : World) (r : Request) : M (bool * JsonResult) :=
  modify (log_call (Call_fetch r)) ;;
  match answer w r with
  | Rejected m => throw (Error m)
  | Response ok j => ret (ok, j)
  end.

(** [await response.json()] *)
Definition response_json (response : bool * JsonResult) : M Json :=
  match snd response with
  | NotJson m => throw (Error m)
  | Parsed data => ret data
  end.

(** [data.name] for one of the fields the workflows read. *)
Definition field {A} (w : World) (name : string) (get : Body -> A)
    (data : Json) : M A :=
  match data with
  | JsonNull => throw (Error (null_property_message w name))
  | JsonObject b => ret (get b)
  end.

(** [new URL(s)] *)
Definition new_URL (w : World) (s : string) : M unit :=
  if URL_parses w s then ret tt else throw (Error "Invalid URL").

(** The handler of a click on [#saveApiKey]. *)
Definition saveApiKey_click (w : World) : M unit :=
  input <- gets apiKeyInput ;;
  match input with
  | None => throw (Error (null_property_message w "value"))
  | Some value =>
      modify (set_apiKey value) ;;
      showNotification "API key saved successfully" "success"
  end.

Definition blog_option (blog : Blog) : BlogOption :=
  {| option_value := blog_id blog; option_text := blog_name blog |}.

Definition blogs_request (key : string) : Request :=
  {| url := "/api/blogs"; method := "POST"; body := ApiKeyBody key |}.

(** [blogSelect.appendChild(option)] *)
Definition appendOption (o : BlogOption) : M unit :=
  modify (fun s =>
    match blogSelect s with
    | Some options => set_blogSelect (Some (List.app options [o])) s
    | None => s
    end).

(** The callback of [data.blogs.forEach], entry after entry: reading the
    [id] of a [null] entry throws. *)
Fixpoint append_options (w : World) (entries : list (option Blog)) : M unit :=
  match entries with
  | [] => ret tt
  | Some blog :: rest => appendOption (blog_option blog) ;; append_options w rest
  | None :: rest => throw (Error (null_property_message w "id"))
  end.

(** [data.blogs.forEach(blog => ...)] for a truthy [data.blogs]. *)
Definition forEach_blog (w : World) (data_blogs : BlogsField) : M unit :=
  match data_blogs with
  | BlogsArray entries => append_options w entries
  | _ => throw (Error (not_a_function_message w "data.blogs.forEach"))
  end.

(** [refreshBlogs()] *)
Definition refreshBlogs (w : World) : M unit :=
  try_finally
    (try_catch
       (key <- gets apiKey ;;
        (if String.eqb key "" then throw (Error "Please set your API key first")
         else ret tt) ;;
        showLoading "Refreshing blogs..." ;;
        response <- fetch w (blogs_request key) ;;
        data <- response_json response ;;
        data_blogs <- field w "blogs" blogs data ;;
        match data_blogs with
        | BlogsMissing =>
            data_error <- field w "error" error data ;;
            throw (Error (or_else data_error "Failed to fetch blogs"))
        | _ =>
            select <- gets blogSelect ;;
            match select with
            | Some _ =>
                modify (set_blogSelect (Some [])) ;;
                forEach_blog w data_blogs
            | None => ret tt
            end ;;
            showNotification "Blogs refreshed successfully" "success"
        end)
       (fun error => showNotification (message error) "error"))
    hideLoading.

Definition articles_request (w : World) (sitemapUrl : string) : Request :=
  {| url := origin w ++ "/api/fetch-articles"; method := "POST";
     body := SitemapBody sitemapUrl |}.

(** The text of a count in a template literal. *)
Definition count_text (n : nat) : string :=
  NilZero.string_of_uint (Nat.to_uint n).

(** The sitemap URL [fetchArticles] works with: the value of the input, or
    the fallback when the input is missing or empty. *)
Definition sitemap_url (s : State) : string :=
  or_else (sitemapUrlInput s) "https://blog.google/sitemap.xml".

(** [fetchArticles()] *)
Definition fetchArticles (w : World) : M unit :=
  try_finally
    (try_catch
       (sitemapUrl <- gets sitemap_url ;;
        (if String.eqb sitemapUrl "" then throw (Error "Please enter a sitemap URL")
         else ret tt) ;;
        (* Validate URL format *)
        try_catch (new_URL w sitemapUrl)
                  (fun _ => throw (Error "Please enter a valid URL")) ;;
        showLoading "Fetching articles..." ;;
        response <- fetch w (articles_request w sitemapUrl) ;;
        data <- try_catch (response_json response)
                          (fun _ => throw (Error "Invalid response from server")) ;;
        (if negb (fst response)
         then data_error <- field w "error" error data ;;
              throw (Error (or_else data_error "Failed to fetch articles"))
         else ret tt) ;;
        data_articles <- field w "articles" body_articles data ;;
        match data_articles with
        | Some (a :: l) =>
            modify (set_articles (a :: l)) ;;
            updateArticlesTable ;;
            showNotification
              ("Successfully fetched " ++ count_text (List.length (a :: l)) ++ " articles")
              "success"
        | _ => throw (Error "No articles found in the sitemap")
        end)
       (fun error =>
          modify (log_call (Call_console_error (message error))) ;;
          showNotification (message error) "error" ;;
          (* Clear articles on error *)
          modify (set_articles []) ;;
          updateArticlesTable))
    hideLoading.

(** ** Observations used in the statements *)

Definition error_notification (m : string) : Notification :=
  mkNotification m (notification_class "error").

Definition success_notification (m : string) : Notification :=
  mkNotification m (notification_class "success").

Definition is_hideLoading (e : Event) : bool :=
  match e with Call_hideLoading => true | _ => false end.

Definition is_fetch (e : Event) : bool :=
  match e with Call_fetch _ => true | _ => false end.

(** How often [hideLoading] was called, and how many requests were sent. *)
Definition hideLoading_calls (t : list Event) : nat :=
  List.length (filter is_hideLoading t).

Definition network_calls (t : list Event) : nat :=
  List.length (filter is_fetch t).

(** Whether [needle] occurs in [s]. *)
Definition mentions (needle s : string) : bool :=
  match String.index 0 needle s with
  | Some _ => true
  | None => false
  end.

(** The blog objects of an array before its first [null] entry, and
    whether it has such an entry. *)
Fixpoint before_null (entries : list (option Blog)) : list Blog :=
  match entries with
  | Some blog :: rest => blog :: before_null rest
  | _ => []
  end.

Fixpoint has_null (entries : list (option Blog)) : bool :=
  match entries with
  | [] => false
  | Some _ :: rest => has_null rest
  | None :: _ => true
  end.

(** Whether the character [c] occurs in [s]. *)
Fixpoint has_char (c : ascii) (s : string) : bool :=
  match s with
  | EmptyString => false
  | String x rest => Ascii.eqb x c || has_char c rest
  end.

(** The number of rows the table shows. *)
Definition row_count (s : State) : nat :=
  match tbody s with
  | Some rows => List.length rows
  | None => 0
  end.

(** The number of loading overlays in the document. *)
Definition overlay_count (s : State) : nat := List.length (overlays s).

(** The ways a fetch of articles fails once the URL is accepted. *)
Inductive fetch_failure : Reply -> Prop :=
  | network_error m : fetch_failure (Rejected m)
  | non_ok_status j : fetch_failure (Response false j)
  | unparseable_body ok m : fetch_failure (Response ok (NotJson m))
  | null_body ok : fetch_failure (Response ok (Parsed JsonNull))
  | server_reported_error ok e bs :
      fetch_failure (Response ok (Parsed (JsonObject (mkBody (Some e) bs None))))
  | articles_missing ok b :
      body_articles b = None -> fetch_failure (Response ok (Parsed (JsonObject b)))
  | articles_empty ok b :
      body_articles b = Some [] -> fetch_failure (Response ok (Parsed (JsonObject b))).

(** The failures of a blog refresh that come before the blog selector is
    touched: validation, a request that is rejected, a body that is not
    JSON or is [null], a body without [blogs], a body that reports an
    error. *)
Inductive refresh_failure (w : World) (s : State) : Prop :=
  | api_key_unset : apiKey s = "" -> refresh_failure w s
  | request_rejected m :
      answer w (blogs_request (apiKey s)) = Rejected m -> refresh_failure w s
  | body_not_json ok m :
      answer w (blogs_request (apiKey s)) = Response ok (NotJson m) ->
      refresh_failure w s
  | body_null ok :
      answer w (blogs_request (apiKey s)) = Response ok (Parsed JsonNull) ->
      refresh_failure w s
  | blogs_missing ok b :
      answer w (blogs_request (apiKey s)) = Response ok (Parsed (JsonObject b)) ->
      blogs b = BlogsMissing -> refresh_failure w s
  | server_error ok e :
      answer w (blogs_request (apiKey s))
        = Response ok (Parsed (JsonObject (mkBody (Some e) BlogsMissing None))) ->
      refresh_failure w s.


(** ** Concrete pages and worlds for the scenarios *)

(** The controller as its constructor leaves it, in a page that has every
    region. *)
Definition initial_state : State :=
  {| apiKey := ""; articles := [];
     apiKeyInput := Some ""; sitemapUrlInput := Some "";
     blogSelect := Some []; tbody := Some [];
     overlays := []; notifications := []; trace := [] |}.

Definition article_A : Article := mkArticle "1" "A" "x" None None.

(** A world in which [new URL] accepts the strings with an http or https
    scheme and the backend answers every request with the one article
    [article_A] and one blog. *)
Definition sample_world : World :=
  {| URL_parses := fun s => String.prefix "http://" s || String.prefix "https://" s;
     origin := "http://localhost:8000";
     answer := fun _ =>
       Response true
         (Parsed (JsonObject
            (mkBody None (BlogsArray [Some (mkBlog "7" "News")]) (Some [article_A]))));
     null_property_message := fun name =>
       "Cannot read properties of null (reading '" ++ name ++ "')";
     not_a_function_message := fun name => name ++ " is not a function" |}.

(** The same world with another answer from the backend. *)
Definition answering (r : Reply) : World :=
  {| URL_parses := URL_parses sample_world;
     origin := origin sample_world;
     answer := fun _ => r;
     null_property_message := null_property_message sample_world;
     not_a_function_message := not_a_function_message sample_world |}.

(** A page that shows one article from an earlier fetch, with its row
    selected, and whose sitemap input holds [input]. *)
Definition page_with_article (input : string) : State :=
  {| apiKey := "secret"; articles := [article_A];
     apiKeyInput := Some "secret"; sitemapUrlInput := Some input;
     blogSelect := Some [mkBlogOption "3" "Old blog"];
     tbody := Some [toggleArticleSelection (render_row article_A)];
     overlays := []; notifications := []; trace := [] |}.


(** Two articles whose title or schedule holds markup: the text of
    [cell_break] sits in the title of the one and in the schedule of the
    other. *)


(** A sequence of calls of [showLoading] and [hideLoading]. *)
Inductive LoadingCall : Type :=
  | ShowLoading (message : string)
  | HideLoading.

Definition call (c : LoadingCall) : M unit :=
  match c with
  | ShowLoading m => showLoading m
  | HideLoading => hideLoading
  end.

(** The states a sequence of calls goes through, the starting state
    first. *)
Fixpoint states (cs : list LoadingCall) (s : State) : list State :=
  match cs with
  | [] => [s]
  | c :: rest => s :: states rest (exec (call c) s)
  end.

Definition run_calls (cs : list LoadingCall) (s : State) : State :=
  fold_left (fun st c => exec (call c) st) cs s.

(** [paired visible cs]: in [cs], [showLoading] is never called while an
    overlay is showing ([visible] tells whether one is at the start). *)
Fixpoint paired (visible : bool) (cs : list LoadingCall) : bool :=
  match cs with
  | [] => true
  | ShowLoading _ :: rest => negb visible && paired true rest
  | HideLoading :: rest => paired false rest
  end.

(** The [showLoading] and the [hideLoading] calls of a sequence. *)
Fixpoint shows (cs : list LoadingCall) : nat :=
  match cs with
  | [] => 0
  | ShowLoading _ :: rest => S (shows rest)
  | HideLoading :: rest => shows rest
  end.

Fixpoint hides (cs : list LoadingCall) : nat :=
  match cs with
  | [] => 0
  | ShowLoading _ :: rest => hides rest
  | HideLoading :: rest => S (hides rest)
  end.

(** Every [showLoading] of the sequence is followed, later on, by a
    [hideLoading] of its own: from any point on there are at least as many
    [hideLoading] calls as [showLoading] calls.  Workflow runs that overlap
    at an [await] give such sequences, since each run calls [hideLoading]
    in its [finally]. *)
Fixpoint every_show_hidden (cs : list LoadingCall) : bool :=
  match cs with
  | [] => true
  | c :: rest => Nat.leb (shows (c :: rest)) (hides (c :: rest)) && every_show_hidden rest
  end.

End App.

(* ================================================================== *)
(** * The remaining handlers                                           *)
(* ================================================================== *)

Module TabEvents.
Import Tabs.

(** [href.replace('#', '')]: the first ['#'] of the string is dropped. *)
Fixpoint remove_first_hash (s : string) : string :=
  match s with
  | EmptyString => EmptyString
  | String c r => if Ascii.eqb c "#" then r else String c (remove_first_hash r)
  end.

(** The click handler of a tab link; [href] is what
    [getAttribute('href')] gives, [None] for a link without the
    attribute. *)
Definition tab_link_click (css : Browser) (href : option string) (d : Document) : Document :=
  match href with
  | Some h => if String.eqb h "" then d else switchTab css (remove_first_hash h) d
  | None => d
  end.

Definition is_link (e : Element) : bool := has_class "tab-link" e.

(** The styling of the selected tab control, and of the others. *)
Definition active (e : Element) : bool :=
  has_class "bg-blue-50" e && has_class "text-blue-600" e &&
  negb (has_class "text-gray-600" e) && negb (has_class "hover:bg-gray-50" e).

Definition inactive (e : Element) : bool :=
  negb (has_class "bg-blue-50" e) && negb (has_class "text-blue-600" e) &&
  has_class "text-gray-600" e && has_class "hover:bg-gray-50" e.

(** Whether a lookup returned the position [i]. *)
Definition looked_up (r : option nat) (i : nat) : bool :=
  match r with
  | Some j => Nat.eqb j i
  | None => false
  end.

(** The class names [switchTab] adds or removes. *)
Definition styling_tokens : list string :=
  ["hidden"; "bg-blue-50"; "text-blue-600"; "text-gray-600"; "hover:bg-gray-50"].

(** What the first element that satisfies [p] satisfies besides, if there
    is such an element. *)
Definition first_match_is (p q : Element -> bool) (d : Document) : bool :=
  match find p d with
  | Some e => q e
  | None => true
  end.

(** The two lookups of [switchTab tabId] find nothing else than a content
    panel and a tab link. *)
Definition well_targeted (tabId : string) (d : Document) : bool :=
  first_match_is (has_id tabId) is_panel d &&
  first_match_is (has_href ("#" ++ tabId)) is_link d.

End TabEvents.

Module Handlers.
Import App.

(** [showPreview(article)]; [preview] is the content of [#articlePreview],
    [None] when the page has no such element. *)
Definition showPreview (article : Article) (preview : option string) : option string :=
  match preview with
  | Some _ =>
      Some (match rewritten article with
            | Some rewritten_content => rewritten_content
            | None => content article
            end)
  | None => None
  end.

(** The click listener [updateArticlesTable] puts on the row of [article],
    on the row and the preview region. *)
Definition row_click (article : Article) (v : Row * option string) : Row * option string :=
  (toggleArticleSelection (fst v), showPreview article (snd v)).

Fixpoint row_clicks (n : nat) (article : Article) (v : Row * option string) : Row * option string :=
  match n with
  | 0 => v
  | S m => row_click article (row_clicks m article v)
  end.

Definition selected (r : Row) : bool := existsb (String.eqb "selected") (row_classes r).
Definition highlighted (r : Row) : bool := existsb (String.eqb "bg-blue-50") (row_classes r).

(** The click handler of [#toggleApiKey], on the [type] of the [#apiKey]
    input ([None] when the page has no such input). *)
Definition toggleApiKey_click (type : option string) : option string :=
  option_map (fun t => if String.eqb t "password" then "text" else "password") type.

(** The world [w] with other answers from the backend. *)
Definition with_answer (w : World) (f : Request -> Reply) : World :=
  {| URL_parses := URL_parses w;
     origin := origin w;
     answer := f;
     null_property_message := null_property_message w;
     not_a_function_message := not_a_function_message w |}.

(** A reply with its status replaced by ok. *)
Definition as_ok (r : Reply) : Reply :=
  match r with
  | Response _ j => Response true j
  | Rejected m => Rejected m
  end.

(** An ok reply that keeps, of its body, the [articles] field alone. *)
Definition articles_only (r : Reply) : Reply :=
  match r with
  | Response true (Parsed (JsonObject b)) =>
      Response true (Parsed (JsonObject (mkBody None BlogsMissing (body_articles b))))
  | _ => r
  end.

(** A reply that keeps, of its body, the [blogs] field, and the [error]
    field when there is no [blogs]. *)
Definition blogs_or_error (r : Reply) : Reply :=
  match r with
  | Response ok (Parsed (JsonObject b)) =>
      Response ok (Parsed (JsonObject
        (mkBody (match blogs b with BlogsMissing => error b | _ => None end)
                (blogs b) None)))
  | _ => r
  end.

End Handlers.

(* ================================================================== *)
(** * Facts about the tab switcher                                     *)
(* ================================================================== *)

Section TokenLists.
Import Tabs.

Lemma contains_app c xs ys :
  contains c (xs ++ ys) = contains c xs || contains c ys.
Proof. unfold contains. apply existsb_app. Qed.

Lemma contains_add c d cs :
  contains c (token_add d cs) = String.eqb c d || contains c cs.
Proof.
  unfold token_add. destruct (contains d cs) eqn:E.
  - destruct (String.eqb_spec c d) as [->|]; [now rewrite E | reflexivity].
  - rewrite contains_app. simpl. rewrite orb_false_r. apply orb_comm.
Qed.

Lemma contains_remove_all c ts cs :
  contains c (remove_all ts cs) = negb (contains c ts) && contains c cs.
Proof.
  unfold remove_all. induction cs as [|x cs IH]; simpl.
  - now rewrite andb_false_r.
  - destruct (String.eqb_spec c x) as [->|N].
    + destruct (contains x ts); simpl; [exact IH | now rewrite String.eqb_refl].
    + destruct (contains x ts); simpl; [exact IH |].
      destruct (String.eqb_spec c x); [contradiction | exact IH].
Qed.

Lemma token_remove_all c cs : token_remove c cs = remove_all [c] cs.
Proof.
  unfold token_remove, remove_all. apply filter_ext. intro x. simpl.
  now rewrite orb_false_r, String.eqb_sym.
Qed.

Lemma token_add_present c cs : contains c cs = true -> token_add c cs = cs.
Proof. unfold token_add. now intros ->. Qed.

Lemma remove_all_add ts d cs :
  remove_all ts (token_add d cs) =
  if contains d ts then remove_all ts cs else token_add d (remove_all ts cs).
Proof.
  unfold token_add at 1. destruct (contains d cs) eqn:E.
  - destruct (contains d ts) eqn:F; [reflexivity |].
    symmetry. apply token_add_present.
    now rewrite contains_remove_all, F, E.
  - unfold remove_all at 1. rewrite filter_app. simpl.
    fold (remove_all ts cs).
    destruct (contains d ts) eqn:F; simpl.
    + apply app_nil_r.
    + unfold token_add. now rewrite contains_remove_all, E, andb_false_r.
Qed.

Lemma remove_all_add_in ts d cs :
  contains d ts = true -> remove_all ts (token_add d cs) = remove_all ts cs.
Proof. intros H. now rewrite remove_all_add, H. Qed.

Lemma remove_all_add_out ts d cs :
  contains d ts = false ->
  remove_all ts (token_add d cs) = token_add d (remove_all ts cs).
Proof. intros H. now rewrite remove_all_add, H. Qed.

Lemma remove_all_remove_all ts us cs :
  remove_all ts (remove_all us cs) = remove_all (us ++ ts) cs.
Proof.
  unfold remove_all. induction cs as [|x cs IH]; simpl; [reflexivity |].
  rewrite contains_app.
  destruct (contains x us); simpl; [exact IH |].
  destruct (contains x ts); simpl; [exact IH | now rewrite IH].
Qed.



Lemma contains_add_other c d l :
  c <> d -> contains c (token_add d l) = contains c l.
Proof.
  intros N. rewrite contains_add.
  now destruct (String.eqb_spec c d).
Qed.

Lemma contains_remove_other c d l :
  c <> d -> contains c (token_remove d l) = contains c l.
Proof.
  intros N. rewrite token_remove_all, contains_remove_all. cbn [contains existsb].
  now destruct (String.eqb_spec c d).
Qed.

End TokenLists.

Section TabSwitching.
Import Tabs.

(** Evaluate comparisons of concrete class names. *)
Ltac eval_names :=
  repeat match goal with
  | |- context [String.eqb ?a ?b] =>
      let v := eval vm_compute in (String.eqb a b) in
      progress change (String.eqb a b) with v
  | |- context [contains ?c (?x :: ?r)] =>
      let v := eval vm_compute in (contains c (x :: r)) in
      progress change (contains c (x :: r)) with v
  | |- context [contains ?c []] => change (contains c []) with false
  | |- context [@app string (?x :: ?r) ?t] =>
      let v := eval cbn [app] in (@app string (x :: r) t) in
      progress change (@app string (x :: r) t) with v
  end.

Ltac push_removes :=
  repeat match goal with
  | |- context [remove_all ?ts (token_add ?d ?cs)] =>
      first [ rewrite (remove_all_add_in ts d cs) by reflexivity
            | rewrite (remove_all_add_out ts d cs) by reflexivity ]
  end.

Ltac norm_tokens :=
  repeat (progress (rewrite ?token_remove_all, ?remove_all_remove_all,
                      ?contains_add, ?contains_remove_all;
                    push_removes; eval_names; cbn [orb andb negb])).



Ltac open_restyle Ec El :=
  unfold restyle_tokens, deactivate_tokens, activate_tokens; cbv zeta;
  rewrite ?Ec; cbn [orb andb negb];
  norm_tokens; rewrite ?Ec, ?El; cbn [orb andb negb];
  norm_tokens; rewrite ?Ec, ?El; cbn [orb andb negb];
  norm_tokens.


Lemma find_update p f d :
  match find_index p d with
  | Some i => update_at i f d
  | None => d
  end = update_first p f d.
Proof.
  induction d as [|e r IH]; simpl; [reflexivity |].
  destruct (p e); [reflexivity |].
  rewrite <- IH. now destruct (find_index p r).
Qed.

Lemma reset_styles_passes tabId d :
  reset_styles tabId d =
  forEach_class "tab-link" deactivate
    (update_first (has_id tabId) (classList_remove "hidden")
      (forEach_class "tab-content" (classList_add "hidden") d)).
Proof.
  unfold reset_styles, getElementById; cbv zeta.
  now rewrite find_update.
Qed.

Lemma has_id_classes t cs e : has_id t (with_classes cs e) = has_id t e.
Proof. reflexivity. Qed.

Lemma has_href_classes t cs e : has_href t (with_classes cs e) = has_href t e.
Proof. reflexivity. Qed.

Lemma has_class_classes c cs e : has_class c (with_classes cs e) = contains c cs.
Proof. reflexivity. Qed.

Lemma add_classes c cs e :
  classList_add c (with_classes cs e) = with_classes (token_add c cs) e.
Proof. reflexivity. Qed.

Lemma remove_classes c cs e :
  classList_remove c (with_classes cs e) = with_classes (token_remove c cs) e.
Proof. reflexivity. Qed.

Lemma deactivate_classes cs e :
  deactivate (with_classes cs e) = with_classes (deactivate_tokens cs) e.
Proof. reflexivity. Qed.

Lemma activate_classes cs e :
  activate (with_classes cs e) = with_classes (activate_tokens cs) e.
Proof. reflexivity. Qed.

Lemma restyle_with_classes a b cs e :
  restyle a b (with_classes cs e) = with_classes (restyle_tokens a b cs) e.
Proof.
  unfold restyle, restyle_tokens; cbv zeta.
  rewrite has_class_classes.
  destruct (contains "tab-content" cs); rewrite ?add_classes;
    destruct a; rewrite ?remove_classes; rewrite has_class_classes;
    match goal with
    | |- context [contains "tab-link" ?l] => destruct (contains "tab-link" l)
    end; rewrite ?deactivate_classes;
    destruct b; rewrite ?activate_classes; reflexivity.
Qed.

Lemma restyle_classes a b e :
  restyle a b e = with_classes (restyle_tokens a b (classList e)) e.
Proof.
  rewrite <- restyle_with_classes. now destruct e.
Qed.

Lemma has_id_restyle t a b e : has_id t (restyle a b e) = has_id t e.
Proof. now rewrite restyle_classes. Qed.

Lemma has_href_restyle t a b e : has_href t (restyle a b e) = has_href t e.
Proof. now rewrite restyle_classes. Qed.


Lemma has_id_forEach t c f e :
  (forall x, has_id t (f x) = has_id t x) ->
  has_id t (if has_class c e then f e else e) = has_id t e.
Proof. intros H. destruct (has_class c e); [apply H | reflexivity]. Qed.

Lemma has_href_forEach t c f e :
  (forall x, has_href t (f x) = has_href t x) ->
  has_href t (if has_class c e then f e else e) = has_href t e.
Proof. intros H. destruct (has_class c e); [apply H | reflexivity]. Qed.

Lemma passes_one_pass tabId (sid shr : bool) d :
  (if shr then (fun x : Document => x) else update_first (has_href ("#" ++ tabId)) activate)
    (forEach_class "tab-link" deactivate
      ((if sid then (fun x : Document => x)
        else update_first (has_id tabId) (classList_remove "hidden"))
        (forEach_class "tab-content" (classList_add "hidden") d)))
  = one_pass tabId sid shr d.
Proof.
  revert sid shr. induction d as [|e r IH]; intros sid shr.
  - now destruct sid, shr.
  - cbn [one_pass]. rewrite <- IH.
    unfold forEach_class at 2. cbn [map]. fold (forEach_class "tab-content" (classList_add "hidden") r).
    set (e1 := if has_class "tab-content" e then classList_add "hidden" e else e).
    assert (Hid : has_id tabId e1 = has_id tabId e)
      by (apply has_id_forEach; reflexivity).
    assert (Hh1 : has_href ("#" ++ tabId) e1 = has_href ("#" ++ tabId) e)
      by (apply has_href_forEach; reflexivity).
    assert (Hh : forall x, has_href ("#" ++ tabId)
                   (if has_class "tab-link" x then deactivate x else x)
                 = has_href ("#" ++ tabId) x)
      by (intro x; apply has_href_forEach; reflexivity).
    destruct sid; cbn [negb andb orb update_first].
    + unfold forEach_class at 1. cbn [map].
      fold (forEach_class "tab-link" deactivate (forEach_class "tab-content" (classList_add "hidden") r)).
      destruct shr; cbn [negb andb orb update_first]; [reflexivity |].
      rewrite Hh, Hh1. now destruct (has_href ("#" ++ tabId) e).
    + rewrite Hid. destruct (has_id tabId e); cbn [negb andb orb update_first].
      * unfold forEach_class at 1. cbn [map].
        fold (forEach_class "tab-link" deactivate (forEach_class "tab-content" (classList_add "hidden") r)).
        destruct shr; cbn [negb andb orb update_first]; [reflexivity |].
        rewrite Hh. change (has_href ("#" ++ tabId) (classList_remove "hidden" e1))
          with (has_href ("#" ++ tabId) e1).
        rewrite Hh1. now destruct (has_href ("#" ++ tabId) e).
      * unfold forEach_class at 1. cbn [map].
        fold (forEach_class "tab-link" deactivate
               (update_first (has_id tabId) (classList_remove "hidden")
                  (forEach_class "tab-content" (classList_add "hidden") r))).
        destruct shr; cbn [negb andb orb update_first]; [reflexivity |].
        rewrite Hh, Hh1. now destruct (has_href ("#" ++ tabId) e).
Qed.

Lemma reset_styles_one_pass tabId d :
  reset_styles tabId d = one_pass tabId false true d.
Proof. rewrite reset_styles_passes. apply (passes_one_pass tabId false true). Qed.

Lemma find_href_one_pass h tabId sid shr d :
  find_index (has_href h) (one_pass tabId sid shr d) = find_index (has_href h) d.
Proof.
  revert sid shr. induction d as [|e r IH]; intros sid shr; [reflexivity |].
  cbn [one_pass find_index]. now rewrite has_href_restyle, IH.
Qed.

(** With a tab id that is literal in the selector, the lookup is the
    search for the href. *)
Lemma literal_lookup css tabId d :
  selector_safe tabId = true ->
  querySelector_href css tabId (reset_styles tabId d) =
  match find_index (has_href ("#" ++ tabId)) d with
  | Some i => Found i
  | None => NotFound
  end.
Proof.
  intros S. unfold querySelector_href.
  now rewrite S, reset_styles_one_pass, find_href_one_pass.
Qed.

Lemma switchTab_one_pass css tabId d :
  selector_safe tabId = true ->
  switchTab css tabId d = one_pass tabId false false d.
Proof.
  intros S. unfold switchTab; cbv zeta.
  unfold querySelector_href. rewrite S.
  transitivity
    (match find_index (has_href ("#" ++ tabId)) (reset_styles tabId d) with
     | Some i => update_at i activate (reset_styles tabId d)
     | None => reset_styles tabId d
     end).
  { now destruct (find_index (has_href ("#" ++ tabId)) (reset_styles tabId d)). }
  rewrite find_update, reset_styles_passes.
  apply (passes_one_pass tabId false false).
Qed.





Lemma contains_panel_restyle a b l :
  contains "tab-content" (restyle_tokens a b l) = contains "tab-content" l.
Proof.
  destruct (contains "tab-content" l) eqn:Ec;
  destruct (contains "tab-link" l) eqn:El;
  destruct a, b; open_restyle Ec El; rewrite ?Ec; reflexivity.
Qed.

Lemma contains_hidden_restyle b l :
  contains "tab-content" l = true ->
  contains "hidden" (restyle_tokens false b l) = true.
Proof.
  intros Ec.
  destruct (contains "tab-link" l) eqn:El;
  destruct b; open_restyle Ec El; reflexivity.
Qed.

Lemma is_panel_restyle a b e : is_panel (restyle a b e) = is_panel e.
Proof.
  rewrite restyle_classes. unfold is_panel. rewrite has_class_classes.
  apply contains_panel_restyle.
Qed.

Lemma panel_hidden b e :
  is_panel e = true -> visible (restyle false b e) = false.
Proof.
  intros H. rewrite restyle_classes. unfold visible.
  rewrite has_class_classes, contains_hidden_restyle; [reflexivity | exact H].
Qed.

Lemma one_pass_unknown tabId sid shr d :
  known_tab tabId d = false ->
  panel_visibility (one_pass tabId sid shr d) =
  map (fun _ => false) (filter is_panel d).
Proof.
  unfold panel_visibility, known_tab.
  revert sid shr. induction d as [|e r IH]; intros sid shr H; [reflexivity |].
  cbn [existsb] in H. apply orb_false_iff in H. destruct H as [He Hr].
  cbn [one_pass filter]. rewrite is_panel_restyle.
  destruct (is_panel e) eqn:P.
  - cbn [andb] in He. rewrite He, andb_false_r. cbn [map].
    rewrite (panel_hidden _ _ P). f_equal. now apply IH.
  - now apply IH.
Qed.

(** The activation of the element the selector lookup gave touches none
    of the classes and attributes below. *)
Lemma has_class_activate c e :
  c <> "bg-blue-50" -> c <> "text-blue-600" ->
  c <> "text-gray-600" -> c <> "hover:bg-gray-50" ->
  has_class c (activate e) = has_class c e.
Proof.
  intros N1 N2 N3 N4.
  change (contains c (activate_tokens (classList e)) = contains c (classList e)).
  unfold activate_tokens.
  now rewrite !contains_remove_other, !contains_add_other by assumption.
Qed.

Lemma is_panel_activate e : is_panel (activate e) = is_panel e.
Proof. apply has_class_activate; discriminate. Qed.

Lemma visible_activate e : visible (activate e) = visible e.
Proof. unfold visible. f_equal. apply has_class_activate; discriminate. Qed.

Lemma update_at_nth f j d i :
  nth_error (update_at j f d) i =
  option_map (fun x => if Nat.eqb j i then f x else x) (nth_error d i).
Proof.
  revert j i. induction d as [|e r IH]; intros j i.
  - destruct j, i; reflexivity.
  - destruct j as [|j], i as [|i]; cbn [update_at nth_error option_map Nat.eqb];
      try reflexivity.
    + now destruct (nth_error r i).
    + apply IH.
Qed.

Lemma map_update_at {A} (f : Element -> A) g j d :
  (forall e, f (g e) = f e) ->
  map f (update_at j g d) = map f d.
Proof.
  intros H. revert j. induction d as [|e r IH]; intros j; [now destruct j |].
  destruct j as [|j]; cbn [update_at map]; [now rewrite H | now rewrite IH].
Qed.

Lemma panel_visibility_update_at j d :
  panel_visibility (update_at j activate d) = panel_visibility d.
Proof.
  unfold panel_visibility.
  revert j. induction d as [|e r IH]; intros j; [now destruct j |].
  destruct j as [|j]; cbn [update_at filter].
  - rewrite is_panel_activate. destruct (is_panel e); [| reflexivity].
    cbn [map]. now rewrite visible_activate.
  - destruct (is_panel e); cbn [map]; now rewrite IH.
Qed.

(** The panels after a switch are those after the reset of the styles,
    whatever the selector lookup gives. *)
Lemma switchTab_panels css tabId d :
  panel_visibility (switchTab css tabId d)
  = panel_visibility (one_pass tabId false true d).
Proof.
  unfold switchTab; cbv zeta.
  destruct (querySelector_href css tabId (reset_styles tabId d));
    rewrite ?panel_visibility_update_at; now rewrite reset_styles_one_pass.
Qed.

Lemma switchTab_unknown css tabId d :
  known_tab tabId d = false ->
  panel_visibility (switchTab css tabId d) = map (fun _ => false) (filter is_panel d).
Proof. intros H. rewrite switchTab_panels. now apply one_pass_unknown. Qed.

(** C7, as amended.  For every document, and whatever the browser makes of
    the selector, a switch to a tab id that no content panel carries hides
    every content panel: none stays visible. *)
Theorem unknown_tab_hides_all_panels css tabId d :
  known_tab tabId d = false ->
  panel_visibility (switchTab css tabId d) = map (fun _ => false) (filter is_panel d).
Proof. intros H. rewrite switchTab_panels. now apply one_pass_unknown. Qed.

Lemma unknown_tab_hides_all_panels_witness :
  known_tab "history" sample_document = false /\
  panel_visibility (switchTab sample_browser "history" sample_document) = [false; false].
Proof.
  split; [reflexivity |].
  exact (unknown_tab_hides_all_panels sample_browser "history" sample_document eq_refl).
Defined.

(** C7 as stated fails: the panel that was showing is hidden after a
    switch to an unknown tab. *)
Lemma unknown_tab_changes_panels :
  known_tab "history" sample_document = false /\
  panel_visibility sample_document = [true; false] /\
  panel_visibility (switchTab sample_browser "history" sample_document)
    <> panel_visibility sample_document.
Proof.
  split; [reflexivity |]. split; [reflexivity |].
  vm_compute. discriminate.
Qed.

Import TabEvents.

(** ** What a switch does to each class of each element *)

Lemma hidden_restyle a b l :
  contains "hidden" (restyle_tokens a b l) =
  negb a && (contains "tab-content" l || contains "hidden" l).
Proof.
  destruct (contains "tab-content" l) eqn:Ec;
  destruct (contains "tab-link" l) eqn:El;
  destruct a, b; open_restyle Ec El; rewrite ?Ec, ?El;
  cbn [orb andb negb]; try reflexivity;
  now destruct (contains "hidden" l).
Qed.

Lemma blue_restyle c a b l :
  c = "bg-blue-50" \/ c = "text-blue-600" ->
  contains c (restyle_tokens a b l) =
  b || (negb (contains "tab-link" l) && contains c l).
Proof.
  intros [-> | ->];
  destruct (contains "tab-content" l) eqn:Ec;
  destruct (contains "tab-link" l) eqn:El;
  destruct a, b; open_restyle Ec El; rewrite ?Ec, ?El;
  cbn [orb andb negb]; try reflexivity;
  match goal with
  | |- context [contains ?c l] => now destruct (contains c l)
  end.
Qed.

Lemma gray_restyle c a b l :
  c = "text-gray-600" \/ c = "hover:bg-gray-50" ->
  contains c (restyle_tokens a b l) =
  negb b && (contains "tab-link" l || contains c l).
Proof.
  intros [-> | ->];
  destruct (contains "tab-content" l) eqn:Ec;
  destruct (contains "tab-link" l) eqn:El;
  destruct a, b; open_restyle Ec El; rewrite ?Ec, ?El;
  cbn [orb andb negb]; try reflexivity;
  match goal with
  | |- context [contains ?c l] => now destruct (contains c l)
  end.
Qed.

Lemma other_restyle c a b l :
  ~ In c styling_tokens ->
  contains c (restyle_tokens a b l) = contains c l.
Proof.
  intros N. cbn [styling_tokens In] in N.
  assert (c <> "hidden" /\ c <> "bg-blue-50" /\ c <> "text-blue-600" /\
          c <> "text-gray-600" /\ c <> "hover:bg-gray-50") as (N1 & N2 & N3 & N4 & N5)
    by (repeat split; intros E; apply N; subst; tauto).
  unfold restyle_tokens, deactivate_tokens, activate_tokens; cbv zeta.
  destruct (contains "tab-content" l); destruct a;
    repeat match goal with
    | |- context [if ?x then _ else _] => destruct x
    end;
    repeat (first [ rewrite contains_add_other by assumption
                  | rewrite contains_remove_other by assumption ]);
    reflexivity.
Qed.

Lemma has_class_restyle c a b e :
  has_class c (restyle a b e) = contains c (restyle_tokens a b (classList e)).
Proof. now rewrite restyle_classes. Qed.

(** The element at a position after the one pass. *)
Lemma one_pass_nth tabId sid shr d i :
  nth_error (one_pass tabId sid shr d) i =
  option_map
    (restyle (negb sid && looked_up (find_index (has_id tabId) d) i)
             (negb shr && looked_up (find_index (has_href ("#" ++ tabId)) d) i))
    (nth_error d i).
Proof.
  revert sid shr i. induction d as [|e r IH]; intros sid shr i.
  - now destruct i.
  - cbn [one_pass find_index].
    destruct i as [|k].
    + cbn [nth_error option_map].
      destruct (has_id tabId e), (has_href ("#" ++ tabId) e); cbn [looked_up Nat.eqb];
        try reflexivity;
        repeat match goal with
        | |- context [option_map S (find_index ?p ?l)] => destruct (find_index p l)
        end; reflexivity.
    + cbn [nth_error]. rewrite IH.
      destruct (nth_error r k) as [x|]; [| reflexivity]. cbn [option_map].
      f_equal. f_equal.
      * destruct (has_id tabId e); cbn [looked_up Nat.eqb orb].
        -- now rewrite orb_true_r, andb_false_r.
        -- rewrite orb_false_r. now destruct (find_index (has_id tabId) r).
      * destruct (has_href ("#" ++ tabId) e); cbn [looked_up Nat.eqb orb].
        -- now rewrite orb_true_r, andb_false_r.
        -- rewrite orb_false_r.
           now destruct (find_index (has_href ("#" ++ tabId)) r).
Qed.

(** The element at a position after a switch: restyled as the two lookups
    of the call say. *)
Lemma switchTab_nth css tabId d i :
  nth_error (switchTab css tabId d) i =
  option_map
    (restyle (looked_up (getElementById tabId d) i)
             (found_at (querySelector_href css tabId (reset_styles tabId d)) i))
    (nth_error d i).
Proof.
  unfold switchTab; cbv zeta.
  generalize (querySelector_href css tabId (reset_styles tabId d)) as r.
  intros r. rewrite reset_styles_one_pass.
  destruct r as [j | |]; rewrite ?update_at_nth, one_pass_nth;
    destruct (nth_error d i) as [x|]; cbn [option_map negb andb found_at];
    reflexivity.
Qed.

(** X1.  After [switchTab tabId], a content panel is visible exactly when it
    is the element the lookup of [tabId] returns. *)
Theorem switchTab_shows_the_looked_up_panel css tabId d i e :
  nth_error (switchTab css tabId d) i = Some e ->
  is_panel e = true ->
  visible e = looked_up (getElementById tabId d) i.
Proof.
  rewrite switchTab_nth. destruct (nth_error d i) as [x|]; [| discriminate].
  cbn [option_map]. intros E P. injection E as <-.
  unfold is_panel, visible in *. rewrite has_class_restyle in *.
  rewrite contains_panel_restyle in P. rewrite hidden_restyle, P.
  now rewrite negb_andb, negb_involutive, orb_false_r.
Qed.

Lemma switchTab_shows_the_looked_up_panel_witness :
  nth_error (switchTab sample_browser "articles" sample_document) 3
    = Some (mkElement (Some "articles") None ["tab-content"]) /\
  visible (mkElement (Some "articles") None ["tab-content"]) = true /\
  panel_visibility (switchTab sample_browser "articles" sample_document) = [false; true].
Proof.
  split; [reflexivity |]. split; [| reflexivity].
  exact (switchTab_shows_the_looked_up_panel sample_browser "articles" sample_document 3 _
           eq_refl eq_refl).
Defined.

Lemma link_styling css tabId d i e :
  nth_error (switchTab css tabId d) i = Some e ->
  is_link e = true ->
  active e = found_at (querySelector_href css tabId (reset_styles tabId d)) i /\
  inactive e = negb (found_at (querySelector_href css tabId (reset_styles tabId d)) i).
Proof.
  rewrite switchTab_nth. destruct (nth_error d i) as [x|]; [| discriminate].
  cbn [option_map]. intros E P. injection E as <-.
  unfold is_link, active, inactive in *. rewrite !has_class_restyle in *.
  assert (L : contains "tab-link" (classList x) = true).
  { rewrite other_restyle in P; [exact P |].
    cbn. intros [H | [H | [H | [H | [H | []]]]]]; discriminate. }
  rewrite !(blue_restyle "bg-blue-50"), !(blue_restyle "text-blue-600"),
    !(gray_restyle "text-gray-600"), !(gray_restyle "hover:bg-gray-50"), L by tauto.
  cbn [negb andb orb].
  split; now destruct (found_at (querySelector_href css tabId (reset_styles tabId d)) i).
Qed.

(** X2.  After [switchTab tabId], a tab link carries the active styling when
    it is the element the selector lookup of the call gave, and the
    inactive styling otherwise (so every tab link is inactive when the
    lookup gave nothing or threw).  For a tab id that is literal in the
    selector, that element is the first one of the document whose href is
    ["#"] followed by the id. *)
Theorem switchTab_styles_the_looked_up_link css tabId d i e :
  nth_error (switchTab css tabId d) i = Some e ->
  is_link e = true ->
  active e = found_at (querySelector_href css tabId (reset_styles tabId d)) i /\
  inactive e = negb (found_at (querySelector_href css tabId (reset_styles tabId d)) i) /\
  (selector_safe tabId = true ->
   found_at (querySelector_href css tabId (reset_styles tabId d)) i
   = looked_up (find_index (has_href ("#" ++ tabId)) d) i).
Proof.
  intros E P. destruct (link_styling css tabId d i e E P) as [A I].
  split; [exact A |]. split; [exact I |].
  intros S. rewrite literal_lookup by exact S.
  now destruct (find_index (has_href ("#" ++ tabId)) d).
Qed.

Lemma switchTab_styles_the_looked_up_link_witness :
  nth_error (switchTab sample_browser "articles" sample_document) 1
    = Some (mkElement None (Some "#articles") ["tab-link"; "bg-blue-50"; "text-blue-600"]) /\
  active (mkElement None (Some "#articles") ["tab-link"; "bg-blue-50"; "text-blue-600"])
    = true /\
  map active (switchTab sample_browser "articles" sample_document)
    = [false; true; false; false].
Proof.
  split; [reflexivity |]. split; [| reflexivity].
  exact (proj1 (switchTab_styles_the_looked_up_link sample_browser "articles"
                  sample_document 1 _ eq_refl eq_refl)).
Defined.

Lemma map_one_pass {A} (f : Element -> A) tabId sid shr d :
  (forall a b e, f (restyle a b e) = f e) ->
  map f (one_pass tabId sid shr d) = map f d.
Proof.
  intros H. revert sid shr. induction d as [|e r IH]; intros sid shr; [reflexivity |].
  cbn [one_pass map]. now rewrite H, IH.
Qed.

(** X3.  [switchTab] restyles and nothing more: the document keeps its
    elements, their ids and hrefs, and every class other than the five
    styling classes stays on the elements that had it and on no other. *)
Theorem switchTab_keeps_structure css tabId d :
  map el_id (switchTab css tabId d) = map el_id d /\
  map el_href (switchTab css tabId d) = map el_href d /\
  forall c, ~ In c styling_tokens ->
    map (has_class c) (switchTab css tabId d) = map (has_class c) d.
Proof.
  assert (K : forall {A} (f : Element -> A),
            (forall e, f (activate e) = f e) ->
            (forall a b e, f (restyle a b e) = f e) ->
            map f (switchTab css tabId d) = map f d).
  { intros A f Ha Hr. unfold switchTab; cbv zeta.
    destruct (querySelector_href css tabId (reset_styles tabId d));
      rewrite ?map_update_at by exact Ha;
      rewrite reset_styles_one_pass; now apply map_one_pass. }
  repeat split.
  - apply K; [reflexivity |]. intros a b e. now rewrite restyle_classes.
  - apply K; [reflexivity |]. intros a b e. now rewrite restyle_classes.
  - intros c N. apply K.
    + intros e. cbn [styling_tokens In] in N.
      apply has_class_activate; intros ->; tauto.
    + intros a b e. rewrite has_class_restyle. now apply other_restyle.
Qed.

Lemma tab_classes_restyle a b l :
  contains "tab-content" (restyle_tokens a b l) = contains "tab-content" l /\
  contains "tab-link" (restyle_tokens a b l) = contains "tab-link" l.
Proof.
  split; apply other_restyle; cbn;
    intros [H | [H | [H | [H | [H | []]]]]]; discriminate.
Qed.

(** A second restyling makes the first one forgotten, as far as the
    classes an element carries go. *)
Lemma restyle_tokens_last_wins c a1 a2 b1 b2 l :
  (a1 = true -> contains "tab-content" l = true) ->
  (a2 = true -> contains "tab-link" l = true) ->
  contains c (restyle_tokens b1 b2 (restyle_tokens a1 a2 l)) =
  contains c (restyle_tokens b1 b2 l).
Proof.
  intros P L.
  destruct (tab_classes_restyle a1 a2 l) as [Tc Tl].
  destruct (in_dec string_dec c styling_tokens) as [I | N].
  - cbn [styling_tokens In] in I.
    destruct I as [<- | [<- | [<- | [<- | [<- | []]]]]].
    + rewrite !hidden_restyle, Tc.
      destruct a1; [rewrite (P eq_refl) |];
        destruct b1, (contains "tab-content" l), (contains "hidden" l);
        reflexivity.
    + rewrite !(blue_restyle "bg-blue-50"), Tl by tauto.
      destruct a2, b2; cbn [negb andb orb]; try reflexivity;
        try (rewrite (L eq_refl); reflexivity);
        now destruct (contains "tab-link" l).
    + rewrite !(blue_restyle "text-blue-600"), Tl by tauto.
      destruct a2, b2; cbn [negb andb orb]; try reflexivity;
        try (rewrite (L eq_refl); reflexivity);
        now destruct (contains "tab-link" l).
    + rewrite !(gray_restyle "text-gray-600"), Tl by tauto.
      destruct a2, b2; cbn [negb andb orb]; try reflexivity;
        try (rewrite (L eq_refl); reflexivity);
        now destruct (contains "tab-link" l).
    + rewrite !(gray_restyle "hover:bg-gray-50"), Tl by tauto.
      destruct a2, b2; cbn [negb andb orb]; try reflexivity;
        try (rewrite (L eq_refl); reflexivity);
        now destruct (contains "tab-link" l).
  - now rewrite !other_restyle.
Qed.

Lemma one_pass_last_wins c a b sa ha sb hb d :
  (sa = false -> first_match_is (has_id a) is_panel d = true) ->
  (ha = false -> first_match_is (has_href ("#" ++ a)) is_link d = true) ->
  map (has_class c) (one_pass b sb hb (one_pass a sa ha d)) =
  map (has_class c) (one_pass b sb hb d).
Proof.
  revert sa ha sb hb. induction d as [|e r IH]; intros sa ha sb hb P L; [reflexivity |].
  cbn [one_pass map]. rewrite !has_id_restyle, !has_href_restyle.
  unfold first_match_is in P, L. cbn [find] in P, L.
  f_equal.
  - rewrite !has_class_restyle, (restyle_classes _ _ e). cbn [classList with_classes].
    apply restyle_tokens_last_wins.
    + intros F. apply andb_true_iff in F. destruct F as [S I].
      apply negb_true_iff in S. rewrite I in P. exact (P S).
    + intros F. apply andb_true_iff in F. destruct F as [S I].
      apply negb_true_iff in S. rewrite I in L. exact (L S).
  - apply IH.
    + intros F. apply orb_false_iff in F. destruct F as [S I].
      rewrite I in P. exact (P S).
    + intros F. apply orb_false_iff in F. destruct F as [S I].
      rewrite I in L. exact (L S).
Qed.

(** X4.  The last switch wins.  For tab ids [a] and [b] that are literal in
    the selector, in a document where the lookups of [a] find nothing else
    than a content panel and a tab link, switching to [a] and then to [b]
    leaves every element with the same classes as switching to [b] at
    once. *)
Theorem last_switch_wins css a b d c :
  selector_safe a = true ->
  selector_safe b = true ->
  well_targeted a d = true ->
  map (has_class c) (switchTab css b (switchTab css a d)) =
  map (has_class c) (switchTab css b d).
Proof.
  intros Sa Sb W. apply andb_true_iff in W. destruct W as [P L].
  rewrite !switchTab_one_pass by assumption. now apply one_pass_last_wins.
Qed.

Lemma last_switch_wins_witness :
  selector_safe "settings" = true /\
  selector_safe "articles" = true /\
  well_targeted "settings" sample_document = true /\
  map (has_class "hidden")
      (switchTab sample_browser "articles"
         (switchTab sample_browser "settings" sample_document))
    = [false; false; true; false].
Proof.
  split; [reflexivity |]. split; [reflexivity |]. split; [reflexivity |].
  exact (last_switch_wins sample_browser "settings" "articles" sample_document
           "hidden" eq_refl eq_refl eq_refl).
Defined.

Lemma no_element_under_the_empty_id d : known_tab "" d = false.
Proof.
  unfold known_tab. induction d as [|e r IH]; [reflexivity |].
  cbn [existsb]. rewrite IH, orb_false_r.
  unfold has_id. destruct (el_id e); cbn; now rewrite andb_false_r.
Qed.

(** X5.  The click handler of a tab link.  A link whose href is ["#"]
    followed by an id switches to that id; a link whose href is ["#"]
    alone hides every content panel; a link without href, or with an empty
    one, does nothing. *)
Theorem tab_link_click_edges css d :
  (forall tabId, tab_link_click css (Some ("#" ++ tabId)) d = switchTab css tabId d) /\
  panel_visibility (tab_link_click css (Some "#") d)
    = map (fun _ => false) (filter is_panel d) /\
  tab_link_click css (Some "") d = d /\
  tab_link_click css None d = d.
Proof.
  repeat split.
  cbn [tab_link_click String.eqb remove_first_hash Ascii.eqb Bool.eqb].
  apply switchTab_unknown.
  apply no_element_under_the_empty_id.
Qed.

(** X26.  When the call ends in the [SyntaxError] of the selector.  That
    does not happen for a tab id that is literal in the selector.  When it
    happens, the steps before the lookup have been done and stay: the
    panels are switched, and every tab link carries the inactive
    styling. *)
Theorem switchTab_throws_after_the_reset css tabId d :
  (selector_safe tabId = true -> switchTab_throws css tabId d = false) /\
  (switchTab_throws css tabId d = true ->
   switchTab css tabId d = reset_styles tabId d /\
   (forall i e, nth_error (switchTab css tabId d) i = Some e ->
      (is_panel e = true -> visible e = looked_up (getElementById tabId d) i) /\
      (is_link e = true -> inactive e = true))).
Proof.
  split.
  - intros S. unfold switchTab_throws. rewrite literal_lookup by exact S.
    now destruct (find_index (has_href ("#" ++ tabId)) d).
  - unfold switchTab_throws. intros T.
    destruct (querySelector_href css tabId (reset_styles tabId d)) eqn:Q;
      try discriminate.
    split; [unfold switchTab; cbv zeta; now rewrite Q |].
    intros i e E. split.
    + intros P. rewrite switchTab_nth in E.
      destruct (nth_error d i) as [x|]; [| discriminate].
      cbn [option_map] in E. injection E as <-.
      unfold is_panel, visible in *. rewrite has_class_restyle in *.
      rewrite contains_panel_restyle in P. rewrite hidden_restyle, P.
      now rewrite negb_andb, negb_involutive, orb_false_r.
    + intros L. destruct (link_styling css tabId d i e E L) as [_ I].
      rewrite I, Q. reflexivity.
Qed.

Lemma switchTab_throws_after_the_reset_witness :
  switchTab_throws sample_browser broken_id sample_document = true /\
  switchTab sample_browser broken_id sample_document
    = reset_styles broken_id sample_document /\
  map inactive (switchTab sample_browser broken_id sample_document)
    = [true; true; false; false] /\
  panel_visibility (switchTab sample_browser broken_id sample_document)
    = [false; false].
Proof.
  split; [reflexivity |]. split; [| split; reflexivity].
  exact (proj1 (proj2 (switchTab_throws_after_the_reset sample_browser broken_id
                         sample_document) eq_refl)).
Defined.

End TabSwitching.

(* ================================================================== *)
(** * Facts about the markup of a row                                  *)
(* ================================================================== *)

Section RowMarkup.
Import App.

Lemma append_inv_head p a b : p ++ a = p ++ b -> a = b.
Proof.
  induction p as [|c p IH]; cbn [String.append]; intros H; [exact H |].
  injection H as H. now apply IH.
Qed.

Lemma length_append a b :
  String.length (a ++ b) = (String.length a + String.length b)%nat.
Proof. induction a as [|c a IH]; cbn; [reflexivity | now rewrite IH]. Qed.

Lemma append_inv_tail p a b : a ++ p = b ++ p -> a = b.
Proof.
  revert b. induction a as [|c a IH]; intros [|d b] H; cbn [String.append] in H.
  - reflexivity.
  - apply (f_equal String.length) in H. cbn [String.length] in H.
    rewrite length_append in H. lia.
  - apply (f_equal String.length) in H. cbn [String.length] in H.
    rewrite length_append in H. lia.
  - injection H as -> H. f_equal. now apply IH.
Qed.

(** Two texts without the character [c], each followed by [c], end at the
    same place. *)
Lemma split_at_first c t1 t2 r1 r2 :
  has_char c t1 = false ->
  has_char c t2 = false ->
  t1 ++ String c r1 = t2 ++ String c r2 ->
  t1 = t2 /\ r1 = r2.
Proof.
  revert t2. induction t1 as [|x t1 IH]; intros [|y t2] H1 H2 E;
    cbn [String.append has_char] in *.
  - injection E as E. now split.
  - injection E as <- _. now rewrite Ascii.eqb_refl in H2.
  - injection E as -> _. now rewrite Ascii.eqb_refl in H1.
  - injection E as -> E.
    apply orb_false_iff in H1. apply orb_false_iff in H2.
    destruct (IH t2 (proj2 H1) (proj2 H2) E) as [-> ->]. now split.
Qed.

Lemma row_markup_injective t1 s1 t2 s2 :
  has_char "<" t1 = false ->
  has_char "<" t2 = false ->
  row_markup t1 s1 = row_markup t2 s2 ->
  t1 = t2 /\ s1 = s2.
Proof.
  intros H1 H2 E. unfold row_markup in E.
  repeat apply append_inv_head in E.
  cbn [String.append] in E.
  destruct (split_at_first _ _ _ _ _ H1 H2 E) as [-> R].
  split; [reflexivity |].
  repeat (injection R as R).
  now apply append_inv_tail in R.
Qed.

(** X27.  What a row tells about its article.  For articles whose titles
    hold no ["<"], the content of the row determines the title and the text
    in the schedule cell: two such articles with the same row content have
    the same title and the same schedule text (the schedule, or the
    placeholder for an absent or empty one).  Without the condition on the
    titles it does not, as [spliced_article] shows. *)
Theorem row_content_determines_plain_titles a b :
  has_char "<" (title a) = false ->
  has_char "<" (title b) = false ->
  innerHTML (render_row a) = innerHTML (render_row b) ->
  title a = title b /\
  or_else (schedule a) "Not scheduled" = or_else (schedule b) "Not scheduled".
Proof.
  intros Ha Hb E. cbn [innerHTML render_row] in E.
  now apply row_markup_injective.
Qed.

Lemma row_content_determines_plain_titles_witness :
  has_char "<" (title article_A) = false /\
  innerHTML (render_row article_A)
    = innerHTML (render_row (mkArticle "9" "A" "other" (Some "") (Some "text"))) /\
  or_else (schedule article_A) "Not scheduled" = or_else (Some "") "Not scheduled".
Proof.
  split; [reflexivity |]. split; [reflexivity |].
  exact (proj2 (row_content_determines_plain_titles article_A
                  (mkArticle "9" "A" "other" (Some "") (Some "text"))
                  eq_refl eq_refl eq_refl)).
Defined.

End RowMarkup.

(* ================================================================== *)
(** * Facts about the loading overlay and the workflows                *)
(* ================================================================== *)

Section Workflows.
Import App.
Open Scope nat_scope.
Open Scope list_scope.

(** Unfold a method down to the state it builds. *)
Ltac run :=
  cbv beta iota zeta delta
    [exec refreshBlogs fetchArticles saveApiKey_click updateArticlesTable
     showLoading hideLoading showNotification fetch response_json field new_URL
     forEach_blog
     try_finally try_catch bind ret throw gets modify call
     set_apiKey set_articles set_blogSelect set_tbody set_overlays
     set_notifications log_call overlay_count row_count sitemap_url fst snd
     apiKey articles apiKeyInput sitemapUrlInput blogSelect tbody overlays
     notifications trace message];
  cbn [error blogs body_articles].

(** Name the fields of the state, so that reads of it compute. *)
Ltac open_state s :=
  destruct s as [key arts key_input url_input select table ovs notes tr];
  unfold sitemap_url, overlay_count, row_count in *;
  cbn [apiKey articles apiKeyInput sitemapUrlInput blogSelect tbody overlays
       notifications trace] in *.

(** What [data.blogs.forEach] leaves of an array: the options of the blogs
    before the first [null] entry, and the TypeError of that entry. *)
Lemma append_options_run w entries key arts key_input url_input opts table ovs notes tr :
  append_options w entries
    (mkState key arts key_input url_input (Some opts) table ovs notes tr) =
  (if has_null entries
   then Thrown (Error (null_property_message w "id"))
   else Normal tt,
   mkState key arts key_input url_input
           (Some (opts ++ map blog_option (before_null entries)))
           table ovs notes tr).
Proof.
  revert opts. induction entries as [| [blog |] rest IH]; intros opts.
  - cbn. now rewrite app_nil_r.
  - cbn [append_options has_null before_null map].
    unfold bind, appendOption, modify, set_blogSelect.
    cbn [blogSelect apiKey articles apiKeyInput sitemapUrlInput tbody overlays
         notifications trace].
    rewrite IH. now rewrite <- app_assoc.
  - cbn. now rewrite app_nil_r.
Qed.

Lemma before_null_all bs : before_null (map Some bs) = bs.
Proof. induction bs as [|b r IH]; [reflexivity |]. cbn. now rewrite IH. Qed.

Lemma has_null_none bs : has_null (map Some bs) = false.
Proof. induction bs as [|b r IH]; [reflexivity | exact IH]. Qed.

Lemma showLoading_adds_overlay m s :
  overlay_count (exec (showLoading m) s) = S (overlay_count s).
Proof. open_state s. run. rewrite length_app. simpl. lia. Qed.

Lemma hideLoading_removes_overlay s :
  overlay_count (exec hideLoading s) = pred (overlay_count s).
Proof. open_state s. run. now destruct ovs. Qed.

(** C1, as amended.  [showLoading] appends an overlay and removes none, so
    a call made in any state adds exactly one overlay to those in the
    document; and at most one overlay exists at any time along every
    sequence of [showLoading] and [hideLoading] calls in which
    [showLoading] is never called while an overlay is showing. *)
Theorem paired_calls_keep_one_overlay cs s :
  overlay_count s <= 1 ->
  paired (negb (overlay_count s =? 0)) cs = true ->
  Forall (fun q => overlay_count q <= 1) (states cs s) /\
  (forall m q, In q (states cs s) ->
     overlay_count (exec (showLoading m) q) = S (overlay_count q)).
Proof.
  intros H P. split; [| intros; apply showLoading_adds_overlay].
  revert s H P. induction cs as [|c cs IH]; intros s H P.
  - now constructor.
  - cbn [states]. constructor; [exact H |].
    destruct c as [m|]; cbn [paired] in P.
    + apply andb_true_iff in P. destruct P as [V P].
      apply negb_true_iff, negb_false_iff, Nat.eqb_eq in V.
      apply IH.
      * cbn [call]. rewrite showLoading_adds_overlay. lia.
      * cbn [call]. now rewrite showLoading_adds_overlay.
    + apply IH.
      * cbn [call]. rewrite hideLoading_removes_overlay. lia.
      * cbn [call]. rewrite hideLoading_removes_overlay.
        replace (pred (overlay_count s) =? 0) with true; [exact P |].
        symmetry. apply Nat.eqb_eq. lia.
Qed.

Lemma paired_calls_keep_one_overlay_witness :
  overlay_count initial_state <= 1 /\
  paired (negb (overlay_count initial_state =? 0))
    [ShowLoading "Refreshing blogs..."; HideLoading;
     ShowLoading "Fetching articles..."; HideLoading] = true /\
  Forall (fun q => overlay_count q <= 1)
    (states [ShowLoading "Refreshing blogs..."; HideLoading;
             ShowLoading "Fetching articles..."; HideLoading] initial_state).
Proof.
  split; [vm_compute; lia |]. split; [reflexivity |].
  refine (proj1 (paired_calls_keep_one_overlay
           [ShowLoading "Refreshing blogs..."; HideLoading;
            ShowLoading "Fetching articles..."; HideLoading] initial_state _ _)).
  - vm_compute. lia.
  - reflexivity.
Defined.

(** C1 as stated fails: a second [showLoading] does not replace the
    overlay of the first, and two overlays are in the document. *)
Lemma showLoading_twice_two_overlays :
  overlay_count
    (run_calls [ShowLoading "Refreshing blogs..."; ShowLoading "Fetching articles..."]
               initial_state) = 2 /\
  ~ overlay_count
      (run_calls [ShowLoading "Refreshing blogs..."; ShowLoading "Fetching articles..."]
                 initial_state) <= 1.
Proof. split; [reflexivity |]. vm_compute. lia. Qed.

Lemma sitemap_url_nonempty s : String.eqb (sitemap_url s) "" = false.
Proof.
  unfold sitemap_url, or_else.
  destruct (sitemapUrlInput s) as [x|]; [| reflexivity].
  destruct (String.eqb x "") eqn:E; [reflexivity | exact E].
Qed.

(** Case analysis on whatever the computation still waits for. *)
Ltac split_case :=
  match goal with
  | |- context [if ?c then _ else _] =>
      lazymatch c with
      | context [if _ then _ else _] => fail
      | context [match _ with _ => _ end] => fail
      | _ => destruct c eqn:?
      end
  | |- context [match ?x with _ => _ end] =>
      lazymatch x with
      | context [if _ then _ else _] => fail
      | context [match _ with _ => _ end] => fail
      | _ => destruct x eqn:?
      end
  end.

Ltac crunch tac :=
  repeat (progress (run; tac; rewrite ?append_options_run; try split_case)).

Lemma or_else_nonempty a : String.eqb (or_else a "https://blog.google/sitemap.xml") "" = false.
Proof.
  unfold or_else. destruct a as [x|]; [| reflexivity].
  destruct (String.eqb x "") eqn:E; [reflexivity | exact E].
Qed.

Lemma network_calls_app t u :
  network_calls (t ++ u) = network_calls t + network_calls u.
Proof. unfold network_calls. now rewrite filter_app, length_app. Qed.

Lemma hideLoading_calls_app t u :
  hideLoading_calls (t ++ u) = hideLoading_calls t + hideLoading_calls u.
Proof. unfold hideLoading_calls. now rewrite filter_app, length_app. Qed.

(** Count the calls in the part of the trace a run has added. *)
Ltac count_calls :=
  rewrite ?network_calls_app, ?hideLoading_calls_app;
  cbn [network_calls hideLoading_calls filter is_fetch is_hideLoading List.length];
  try lia.

Ltac finish :=
  repeat split; try reflexivity; try count_calls;
  try (rewrite ?length_app; cbn [List.length]; lia);
  try match goal with
      | H : (_ ++ _ = _) |- _ =>
          apply (f_equal (@List.length _)) in H; rewrite length_app in H;
          cbn [List.length] in H; lia
      end.

(** C2, as amended.  For every prior article collection, when the sitemap
    URL does not parse, [fetchArticles] sends no request, shows exactly one
    error notification, "Please enter a valid URL", and (as on every other
    error) resets [articles] to empty and empties the table. *)
Theorem invalid_url_fails_locally_and_resets w s :
  URL_parses w (sitemap_url s) = false ->
  let s' := exec (fetchArticles w) s in
  network_calls (trace s') = network_calls (trace s) /\
  notifications s' = notifications s ++ [error_notification "Please enter a valid URL"] /\
  articles s' = [] /\
  tbody s' = option_map (fun _ => []) (tbody s).
Proof.
  intros U s'. subst s'. open_state s.
  run. rewrite or_else_nonempty, U.
  crunch idtac; finish.
Qed.

Lemma invalid_url_fails_locally_and_resets_witness :
  URL_parses sample_world (sitemap_url (page_with_article "not a url")) = false /\
  articles (exec (fetchArticles sample_world) (page_with_article "not a url")) = [] /\
  tbody (exec (fetchArticles sample_world) (page_with_article "not a url")) = Some [].
Proof.
  split; [reflexivity |].
  pose proof (invalid_url_fails_locally_and_resets sample_world
                (page_with_article "not a url") eq_refl) as H.
  cbv zeta in H. destruct H as [_ [_ [Ha Ht]]]. split; [exact Ha | exact Ht].
Defined.

(** C2 as stated fails: with the input "not a url" the article of an
    earlier fetch is gone afterwards. *)
Lemma invalid_url_clears_articles :
  URL_parses sample_world (sitemap_url (page_with_article "not a url")) = false /\
  articles (page_with_article "not a url") = [article_A] /\
  articles (exec (fetchArticles sample_world) (page_with_article "not a url"))
    <> articles (page_with_article "not a url").
Proof.
  split; [reflexivity |]. split; [reflexivity |].
  vm_compute. discriminate.
Qed.

(** C3.  For every prior article collection, once the URL is accepted every
    failure of the fetch (network error, non-ok status, unparseable body,
    [null] body, server-reported error, missing or empty article list)
    gives exactly one error notification, [articles] reset to empty and
    the table re-rendered with zero rows. *)
Theorem fetch_failure_resets_articles w s :
  URL_parses w (sitemap_url s) = true ->
  fetch_failure (answer w (articles_request w (sitemap_url s))) ->
  let s' := exec (fetchArticles w) s in
  (exists m, notifications s' = notifications s ++ [error_notification m]) /\
  articles s' = [] /\
  tbody s' = option_map (fun _ => []) (tbody s) /\
  row_count s' = 0.
Proof.
  intros U F s'. subst s'. open_state s.
  run. rewrite or_else_nonempty, U.
  crunch idtac;
    first [ split; [eexists; reflexivity | finish]
          | exfalso; inversion F; subst;
            cbn [body_articles negb] in *; congruence ].
Qed.

Lemma fetch_failure_resets_articles_witness :
  URL_parses (answering (Response true (Parsed (JsonObject (mkBody None BlogsMissing (Some []))))))
    (sitemap_url (page_with_article "https://example.org/sitemap.xml")) = true /\
  (let s' := exec (fetchArticles
                     (answering (Response true
                        (Parsed (JsonObject (mkBody None BlogsMissing (Some [])))))))
                  (page_with_article "https://example.org/sitemap.xml") in
   notifications s' = [error_notification "No articles found in the sitemap"] /\
   articles s' = [] /\ tbody s' = Some []).
Proof.
  split; [reflexivity |].
  pose proof (fetch_failure_resets_articles
                (answering (Response true
                   (Parsed (JsonObject (mkBody None BlogsMissing (Some []))))))
                (page_with_article "https://example.org/sitemap.xml")
                eq_refl (articles_empty true (mkBody None BlogsMissing (Some [])) eq_refl)) as H.
  cbv zeta in *. destruct H as [_ [Ha [Ht _]]].
  split; [reflexivity |]. split; [exact Ha | exact Ht].
Defined.



(** C6.  In every run of [refreshBlogs] and of [fetchArticles], whatever
    the backend answers (a rejected request, a body that is not JSON and a
    [null] body included), [hideLoading] is called exactly once, and the
    run leaves no more overlays than it found: none when none was
    showing. *)
Theorem hideLoading_runs_once w s :
  (hideLoading_calls (trace (exec (refreshBlogs w) s))
     = S (hideLoading_calls (trace s)) /\
   overlay_count (exec (refreshBlogs w) s) <= overlay_count s) /\
  (hideLoading_calls (trace (exec (fetchArticles w) s))
     = S (hideLoading_calls (trace s)) /\
   overlay_count (exec (fetchArticles w) s) <= overlay_count s).
Proof.
  open_state s. split.
  - crunch idtac; finish.
  - run. rewrite or_else_nonempty. crunch idtac; finish.
Qed.

Lemma reply_failure_or_success r :
  fetch_failure r \/
  exists b a l, r = Response true (Parsed (JsonObject b)) /\ body_articles b = Some (a :: l).
Proof.
  destruct r as [m | [|] [m | [| b]]]; try (left; solve [constructor]).
  destruct (body_articles b) as [[| a l] |] eqn:B.
  - left. now apply articles_empty.
  - right. now exists b, a, l.
  - left. now apply articles_missing.
Qed.

(** C5, as amended.  When [refreshBlogs] fails before it touches the blog
    selector, that is by validation, by a body without [blogs] or by a
    server-reported error (and also by a rejected request or a body that is
    not JSON or is [null]), the option list of the blog selector is
    unchanged and exactly one error notification is shown; with an empty
    [apiKey] that notification mentions the API key and no request is
    sent. *)
Theorem refresh_failure_keeps_blog_list w s :
  refresh_failure w s ->
  let s' := exec (refreshBlogs w) s in
  blogSelect s' = blogSelect s /\
  exists m,
    notifications s' = notifications s ++ [error_notification m] /\
    (apiKey s = "" ->
       mentions "API key" m = true /\
       network_calls (trace s') = network_calls (trace s)).
Proof.
  intros F s'. subst s'. open_state s.
  assert (V : String.eqb key "" = true \/
              (key <> "" /\
               ((exists m, answer w (blogs_request key) = Rejected m) \/
                (exists ok m, answer w (blogs_request key) = Response ok (NotJson m)) \/
                (exists ok, answer w (blogs_request key) = Response ok (Parsed JsonNull)) \/
                (exists ok b, answer w (blogs_request key)
                                = Response ok (Parsed (JsonObject b)) /\
                              blogs b = BlogsMissing)))).
  { destruct (String.eqb_spec key "") as [K | K]; [now left | right].
    split; [exact K |].
    destruct F as [K' | m E | ok m E | ok E | ok b E B | ok e E];
      cbn [apiKey] in *.
    - contradiction.
    - left. now exists m.
    - right; left. now exists ok, m.
    - do 2 right; left. now exists ok.
    - do 3 right. now exists ok, b.
    - do 3 right. now exists ok, (mkBody (Some e) BlogsMissing None). }
  clear F. run.
  destruct V as [K | [K [[m E] | [[ok [m E]] | [[ok E] | [ok [b [E B]]]]]]]].
  - rewrite K. crunch idtac;
      (split; [reflexivity | eexists; split; [reflexivity |]]); intros _; finish.
  - apply String.eqb_neq in K. rewrite K, E.
    crunch idtac;
      (split; [reflexivity | eexists; split; [reflexivity |]]);
      intros ->; discriminate.
  - apply String.eqb_neq in K. rewrite K, E.
    crunch idtac;
      (split; [reflexivity | eexists; split; [reflexivity |]]);
      intros ->; discriminate.
  - apply String.eqb_neq in K. rewrite K, E.
    crunch idtac;
      (split; [reflexivity | eexists; split; [reflexivity |]]);
      intros ->; discriminate.
  - apply String.eqb_neq in K. rewrite K, E. run. rewrite B.
    crunch idtac;
      (split; [reflexivity | eexists; split; [reflexivity |]]);
      intros ->; discriminate.
Qed.

Lemma refresh_failure_keeps_blog_list_witness :
  refresh_failure sample_world initial_state /\
  (let s' := exec (refreshBlogs sample_world) initial_state in
   blogSelect s' = blogSelect initial_state /\
   notifications s' = [error_notification "Please set your API key first"] /\
   mentions "API key" "Please set your API key first" = true /\
   network_calls (trace s') = 0).
Proof.
  split; [now apply api_key_unset |].
  pose proof (refresh_failure_keeps_blog_list sample_world initial_state
                (api_key_unset sample_world initial_state eq_refl)) as H.
  cbv zeta in *. destruct H as [Hb _].
  split; [exact Hb |]. repeat split.
Defined.

(** C5 as stated fails for a failure that comes while the list is rebuilt.
    The selector is emptied before [data.blogs.forEach] runs: with a
    [blogs] that is not an array the run shows one error notification and
    leaves the selector empty; with an array that holds a [null] entry it
    leaves the options of the blogs before that entry. *)
Lemma malformed_blogs_overwrite_the_list :
  blogSelect (page_with_article "") = Some [mkBlogOption "3" "Old blog"] /\
  (let s' := exec (refreshBlogs
                     (answering (Response true
                        (Parsed (JsonObject (mkBody None BlogsNotArray None))))))
                  (page_with_article "") in
   notifications s' = [error_notification "data.blogs.forEach is not a function"] /\
   blogSelect s' = Some [] /\
   blogSelect s' <> blogSelect (page_with_article "")) /\
  (let s' := exec (refreshBlogs
                     (answering (Response true
                        (Parsed (JsonObject
                           (mkBody None
                              (BlogsArray [Some (mkBlog "7" "News"); None;
                                           Some (mkBlog "8" "Notes")])
                              None))))))
                  (page_with_article "") in
   notifications s'
     = [error_notification "Cannot read properties of null (reading 'id')"] /\
   blogSelect s' = Some [mkBlogOption "7" "News"] /\
   blogSelect s' <> blogSelect (page_with_article "")).
Proof.
  split; [reflexivity |].
  split; (split; [reflexivity |]); (split; [reflexivity |]);
    vm_compute; discriminate.
Qed.




(** C10.  For every value of the input, the empty string included, a click
    on the save control sets [apiKey] to that value and shows the success
    notification; after saving an empty input [apiKey] is empty, and a blog
    refresh that follows sends no request and reports the missing API
    key. *)
Theorem saveApiKey_always_reports_success w s value :
  apiKeyInput s = Some value ->
  let s' := exec (saveApiKey_click w) s in
  apiKey s' = value /\
  notifications s' =
    notifications s ++ [success_notification "API key saved successfully"] /\
  (value = "" ->
   let s'' := exec (refreshBlogs w) s' in
   apiKey s'' = "" /\
   network_calls (trace s'') = network_calls (trace s') /\
   notifications s'' =
     notifications s' ++ [error_notification "Please set your API key first"]).
Proof.
  intros I s'. subst s'. open_state s. subst key_input.
  split; [reflexivity |]. split; [reflexivity |].
  intros ->. crunch ltac:(rewrite ?String.eqb_refl); finish.
Qed.

Lemma saveApiKey_always_reports_success_witness :
  apiKeyInput initial_state = Some "" /\
  (let s' := exec (saveApiKey_click sample_world) initial_state in
   apiKey s' = "" /\
   notifications s' = [success_notification "API key saved successfully"] /\
   notifications (exec (refreshBlogs sample_world) s') =
     [success_notification "API key saved successfully";
      error_notification "Please set your API key first"]).
Proof.
  split; [reflexivity |].
  pose proof (saveApiKey_always_reports_success sample_world initial_state ""
                eq_refl) as H.
  cbv zeta in *. destruct H as [Hk [Hn Hr]].
  split; [exact Hk |]. split; [exact Hn |].
  destruct (Hr eq_refl) as [_ [_ Hn']]. exact Hn'.
Defined.

Lemma every_show_hidden_le cs :
  every_show_hidden cs = true -> shows cs <= hides cs.
Proof.
  destruct cs as [|c cs]; intros H; [cbn; lia |].
  cbn [every_show_hidden] in H. apply andb_true_iff in H.
  destruct H as [B _]. now apply Nat.leb_le in B.
Qed.

Lemma run_calls_bound cs s :
  every_show_hidden cs = true ->
  overlay_count (run_calls cs s) <= overlay_count s + shows cs - hides cs.
Proof.
  revert s. induction cs as [|c cs IH]; intros s H.
  - cbn. lia.
  - cbn [every_show_hidden] in H. apply andb_true_iff in H.
    destruct H as [B H]. apply Nat.leb_le in B.
    unfold run_calls. cbn [fold_left]. fold (run_calls cs (exec (call c) s)).
    specialize (IH (exec (call c) s) H).
    pose proof (every_show_hidden_le cs H) as L.
    destruct c as [m|]; cbn [call shows hides] in *.
    + rewrite showLoading_adds_overlay in IH. lia.
    + rewrite hideLoading_removes_overlay in IH. lia.
Qed.

(** X23.  Overlapping runs: when every [showLoading] is followed by a
    [hideLoading] of its own, no overlay is left at the end, in whatever
    order the calls of the runs fall. *)
Theorem overlapping_runs_leave_no_overlay cs s :
  every_show_hidden cs = true ->
  overlay_count s = 0 ->
  overlay_count (run_calls cs s) = 0.
Proof.
  intros H Z. pose proof (run_calls_bound cs s H) as B.
  pose proof (every_show_hidden_le cs H) as L. lia.
Qed.

Import Handlers.

(** ** Further facts about the workflows *)

(** Unfolding for statements about worlds with other answers. *)
Ltac other_answers :=
  cbv beta iota delta [with_answer as_ok articles_only blogs_or_error];
  cbn [URL_parses origin answer null_property_message].

(** X6.  A blog refresh with a key sends exactly one request, the POST of
    that key to [/api/blogs]; the overlay is shown before it and hidden
    after it, and nothing else is called. *)
Theorem refreshBlogs_sends_one_request w s :
  apiKey s <> "" ->
  trace (exec (refreshBlogs w) s) =
  trace s ++
  [Call_showLoading "Refreshing blogs...";
   Call_fetch {| url := "/api/blogs"; method := "POST"; body := ApiKeyBody (apiKey s) |};
   Call_hideLoading].
Proof.
  intros K. open_state s. apply String.eqb_neq in K.
  run. rewrite K.
  crunch idtac; rewrite <- ?app_assoc; reflexivity.
Qed.

Lemma refreshBlogs_sends_one_request_witness :
  apiKey (page_with_article "") <> "" /\
  trace (exec (refreshBlogs sample_world) (page_with_article "")) =
  [Call_showLoading "Refreshing blogs...";
   Call_fetch {| url := "/api/blogs"; method := "POST"; body := ApiKeyBody "secret" |};
   Call_hideLoading].
Proof.
  split; [discriminate |].
  exact (refreshBlogs_sends_one_request sample_world (page_with_article "")
           ltac:(discriminate)).
Defined.

(** X7.  An article fetch with a URL that parses sends exactly one request,
    the POST of that URL to [/api/fetch-articles] under the page's origin,
    between [showLoading] and [hideLoading]; the only other call is the
    [console.error] of a failure. *)
Theorem fetchArticles_sends_one_request w s :
  URL_parses w (sitemap_url s) = true ->
  exists errors,
    trace (exec (fetchArticles w) s) =
    trace s ++
    [Call_showLoading "Fetching articles...";
     Call_fetch {| url := (origin w ++ "/api/fetch-articles")%string; method := "POST";
                   body := SitemapBody (sitemap_url s) |}] ++
    errors ++ [Call_hideLoading] /\
    (errors = [] \/ exists m, errors = [Call_console_error m]).
Proof.
  intros U. open_state s.
  run. rewrite or_else_nonempty, U.
  crunch ltac:(cbv delta [articles_request]);
    first [ exists []; split; [rewrite <- ?app_assoc; reflexivity | now left]
          | eexists [_]; split; [rewrite <- ?app_assoc; reflexivity | right; eauto] ].
Qed.

Lemma fetchArticles_sends_one_request_witness :
  URL_parses sample_world
    (sitemap_url (page_with_article "https://example.org/sitemap.xml")) = true /\
  trace (exec (fetchArticles sample_world)
           (page_with_article "https://example.org/sitemap.xml")) =
  [Call_showLoading "Fetching articles...";
   Call_fetch {| url := "http://localhost:8000/api/fetch-articles"; method := "POST";
                 body := SitemapBody "https://example.org/sitemap.xml" |};
   Call_hideLoading].
Proof.
  split; [reflexivity |].
  destruct (fetchArticles_sends_one_request sample_world
              (page_with_article "https://example.org/sitemap.xml") eq_refl)
    as [errors [_ _]].
  reflexivity.
Defined.

(** X8.  An empty or missing sitemap input is no error: the fallback URL is
    fetched instead (the request goes out as soon as the browser accepts
    the fallback). *)
Theorem empty_input_fetches_the_fallback w s :
  sitemapUrlInput s = None \/ sitemapUrlInput s = Some "" ->
  URL_parses w "https://blog.google/sitemap.xml" = true ->
  network_calls (trace (exec (fetchArticles w) s)) = S (network_calls (trace s)) /\
  In (Call_fetch {| url := (origin w ++ "/api/fetch-articles")%string; method := "POST";
                    body := SitemapBody "https://blog.google/sitemap.xml" |})
     (trace (exec (fetchArticles w) s)).
Proof.
  intros E U.
  assert (F : sitemap_url s = "https://blog.google/sitemap.xml")
    by (unfold sitemap_url; destruct E as [-> | ->]; reflexivity).
  open_state s. run. rewrite or_else_nonempty, !F, U.
  crunch ltac:(cbv delta [articles_request]); split;
    try count_calls;
    repeat (apply in_or_app; first [ right; cbn [In]; now left | left ]).
Qed.

Lemma empty_input_fetches_the_fallback_witness :
  sitemapUrlInput initial_state = Some "" /\
  URL_parses sample_world "https://blog.google/sitemap.xml" = true /\
  network_calls (trace (exec (fetchArticles sample_world) initial_state)) = 1.
Proof.
  split; [reflexivity |]. split; [reflexivity |].
  exact (proj1 (empty_input_fetches_the_fallback sample_world initial_state
                  (or_intror eq_refl) eq_refl)).
Defined.

(** X9.  Which message a failed article fetch shows.  A rejected request
    shows the rejection's own message; a body that is not JSON shows
    "Invalid response from server", whatever the status; a non-ok response
    shows the body's [error], or "Failed to fetch articles" when that is
    missing or empty; an ok response without articles shows "No articles
    found in the sitemap". *)
Theorem fetchArticles_error_messages w s :
  URL_parses w (sitemap_url s) = true ->
  let r := answer w (articles_request w (sitemap_url s)) in
  let shown m :=
    notifications (exec (fetchArticles w) s)
      = notifications s ++ [error_notification m] in
  (forall m, r = Rejected m -> shown m) /\
  (forall ok m, r = Response ok (NotJson m) -> shown "Invalid response from server") /\
  (forall b, r = Response false (Parsed (JsonObject b)) ->
     shown (or_else (error b) "Failed to fetch articles")) /\
  (forall b, r = Response true (Parsed (JsonObject b)) ->
     body_articles b = None \/ body_articles b = Some [] ->
     shown "No articles found in the sitemap") /\
  (r = Response false (Parsed JsonNull) -> shown (null_property_message w "error")) /\
  (r = Response true (Parsed JsonNull) -> shown (null_property_message w "articles")).
Proof.
  intros U r shown. subst r shown. open_state s.
  repeat split; intros;
    repeat match goal with
           | H : _ \/ _ |- _ => destruct H
           end;
    run; rewrite or_else_nonempty, U;
    match goal with
    | H : answer _ _ = _ |- _ => run; rewrite H
    end;
    crunch ltac:(cbn [negb];
                 try match goal with
                     | H : body_articles _ = _ |- _ => rewrite H
                     end);
    reflexivity.
Qed.

Lemma fetchArticles_error_messages_witness :
  URL_parses sample_world
    (sitemap_url (page_with_article "https://example.org/sitemap.xml")) = true /\
  notifications
    (exec (fetchArticles
             (answering (Response false
                (Parsed (JsonObject (mkBody (Some "Sitemap not reachable") BlogsMissing None))))))
          (page_with_article "https://example.org/sitemap.xml"))
    = [error_notification "Sitemap not reachable"].
Proof.
  split; [reflexivity |].
  pose proof (fetchArticles_error_messages
                (answering (Response false
                   (Parsed (JsonObject (mkBody (Some "Sitemap not reachable") BlogsMissing None)))))
                (page_with_article "https://example.org/sitemap.xml") eq_refl) as H.
  cbv zeta in H. destruct H as [_ [_ [H _]]].
  exact (H _ eq_refl).
Defined.

(** X10.  Which message a failed blog refresh shows.  A rejected request and
    a body that is not JSON both show the runtime's own message; a body
    without [blogs] shows its [error], or "Failed to fetch blogs" when that
    is missing or empty. *)
Theorem refreshBlogs_error_messages w s :
  apiKey s <> "" ->
  let r := answer w (blogs_request (apiKey s)) in
  let shown m :=
    notifications (exec (refreshBlogs w) s)
      = notifications s ++ [error_notification m] in
  (forall m, r = Rejected m -> shown m) /\
  (forall ok m, r = Response ok (NotJson m) -> shown m) /\
  (forall ok, r = Response ok (Parsed JsonNull) -> shown (null_property_message w "blogs")) /\
  (forall ok b, r = Response ok (Parsed (JsonObject b)) -> blogs b = BlogsMissing ->
     shown (or_else (error b) "Failed to fetch blogs")).
Proof.
  intros K r shown. subst r shown. open_state s. apply String.eqb_neq in K.
  repeat split; intros;
    run; rewrite K;
    match goal with
    | H : answer _ _ = _ |- _ => run; rewrite H
    end;
    crunch ltac:(try match goal with
                     | H : blogs _ = _ |- _ => rewrite H
                     end);
    reflexivity.
Qed.

Lemma refreshBlogs_error_messages_witness :
  apiKey (page_with_article "") <> "" /\
  notifications
    (exec (refreshBlogs (answering (Response true (NotJson "Unexpected token <"))))
          (page_with_article ""))
    = [error_notification "Unexpected token <"].
Proof.
  split; [discriminate |].
  pose proof (refreshBlogs_error_messages
                (answering (Response true (NotJson "Unexpected token <")))
                (page_with_article "") ltac:(discriminate)) as H.
  cbv zeta in H. destruct H as [_ [H _]].
  exact (H true _ eq_refl).
Defined.

(** X11.  A blog refresh that gets a body with [blogs] replaces the options of
    the selector by one option per blog, in the order of the body, whatever
    the status of the response and also when the list is empty (the
    selector is then emptied), and reports success. *)
Theorem refreshBlogs_replaces_options w s ok b bs :
  apiKey s <> "" ->
  answer w (blogs_request (apiKey s)) = Response ok (Parsed (JsonObject b)) ->
  blogs b = BlogsArray (map Some bs) ->
  let s' := exec (refreshBlogs w) s in
  blogSelect s' = option_map (fun _ => map blog_option bs) (blogSelect s) /\
  notifications s' =
    notifications s ++ [success_notification "Blogs refreshed successfully"].
Proof.
  intros K E B s'. subst s'. open_state s. apply String.eqb_neq in K.
  run. rewrite K. run. rewrite E. run. rewrite B.
  destruct select as [old |]; run.
  - rewrite append_options_run, has_null_none, before_null_all.
    crunch idtac; split; reflexivity.
  - crunch idtac; split; reflexivity.
Qed.

Lemma refreshBlogs_replaces_options_witness :
  apiKey (page_with_article "") <> "" /\
  blogSelect (exec (refreshBlogs sample_world) (page_with_article ""))
    = Some [mkBlogOption "7" "News"] /\
  blogSelect (exec (refreshBlogs
                      (answering (Response false
                         (Parsed (JsonObject (mkBody (Some "down") (BlogsArray []) None))))))
                   (page_with_article ""))
    = Some [].
Proof.
  split; [discriminate |]. split.
  - exact (proj1 (refreshBlogs_replaces_options sample_world (page_with_article "")
                    true _ [mkBlog "7" "News"] ltac:(discriminate) eq_refl eq_refl)).
  - exact (proj1 (refreshBlogs_replaces_options
                    (answering (Response false
                       (Parsed (JsonObject (mkBody (Some "down") (BlogsArray []) None)))))
                    (page_with_article "")
                    false _ [] ltac:(discriminate) eq_refl eq_refl)).
Defined.

(** X12.  What a blog refresh does not look at: the status of the response,
    the [articles] field of the body, and the [error] field when the body
    has [blogs].  The run ends in the same state when these are replaced. *)
Theorem refreshBlogs_reads_blogs_or_error w s :
  exec (refreshBlogs w) s =
  exec (refreshBlogs (with_answer w (fun r => blogs_or_error (as_ok (answer w r))))) s.
Proof.
  open_state s. run. other_answers.
  destruct (String.eqb key "") eqn:K.
  - crunch idtac; reflexivity.
  - destruct (answer w (blogs_request key)) as [m | ok [m | [| b]]];
      other_answers; crunch idtac; reflexivity.
Qed.

Lemma articles_request_with_answer w f x :
  articles_request (with_answer w f) x = articles_request w x.
Proof. reflexivity. Qed.

(** X13.  What an article fetch does not look at in an ok response: the
    [error] and the [blogs] field of the body.  The run ends in the same
    state when they are dropped. *)
Theorem fetchArticles_reads_articles_only w s :
  exec (fetchArticles w) s =
  exec (fetchArticles (with_answer w (fun r => articles_only (answer w r)))) s.
Proof.
  open_state s. run. rewrite !articles_request_with_answer.
  other_answers. rewrite or_else_nonempty.
  destruct (URL_parses w (or_else url_input "https://blog.google/sitemap.xml")) eqn:U.
  - destruct (answer w (articles_request w
                (or_else url_input "https://blog.google/sitemap.xml")))
      as [m | [|] [m | [| b]]];
      other_answers; crunch ltac:(cbn [negb]); reflexivity.
  - crunch ltac:(cbn [negb]); reflexivity.
Qed.

(** X14.  What the workflows leave alone.  A blog refresh never changes
    [apiKey], [articles], the table or the two inputs; an article fetch
    never changes [apiKey], the blog selector or the two inputs. *)
Theorem workflows_leave_the_rest_alone w s :
  (let s' := exec (refreshBlogs w) s in
   apiKey s' = apiKey s /\ articles s' = articles s /\ tbody s' = tbody s /\
   apiKeyInput s' = apiKeyInput s /\ sitemapUrlInput s' = sitemapUrlInput s) /\
  (let s' := exec (fetchArticles w) s in
   apiKey s' = apiKey s /\ blogSelect s' = blogSelect s /\
   apiKeyInput s' = apiKeyInput s /\ sitemapUrlInput s' = sitemapUrlInput s).
Proof.
  open_state s. split.
  - crunch idtac; repeat split.
  - run. rewrite or_else_nonempty. crunch idtac; repeat split.
Qed.

(** X15.  After every article fetch the table shows the collection, one
    rendered row per article of [articles] (when the page has the table),
    exactly one notification has been added, and it is the success
    notification exactly when [articles] is not empty afterwards. *)
Theorem fetchArticles_table_in_sync w s :
  let s' := exec (fetchArticles w) s in
  tbody s' = option_map (fun _ => map render_row (articles s')) (tbody s) /\
  exists n,
    notifications s' = notifications s ++ [n] /\
    (className n = notification_class "success" /\ articles s' <> [] \/
     className n = notification_class "error" /\ articles s' = []).
Proof.
  open_state s. run. rewrite or_else_nonempty.
  crunch ltac:(cbn [negb]);
    (split; [reflexivity |]); eexists; (split; [reflexivity |]);
    first [ right; split; reflexivity
          | left; split; [reflexivity | discriminate] ].
Qed.

(** X16.  Every blog refresh adds exactly one notification, a success or an
    error one.  In a run that reports an error the options of the blog
    selector are as before, unless the body of the response carried a
    [blogs] that is not an array, or an array with a [null] entry. *)
Theorem refreshBlogs_notifies_once w s :
  let s' := exec (refreshBlogs w) s in
  exists n,
    notifications s' = notifications s ++ [n] /\
    (className n = notification_class "success" \/
     className n = notification_class "error" /\
     (blogSelect s' = blogSelect s \/
      apiKey s <> "" /\
      exists ok b,
        answer w (blogs_request (apiKey s)) = Response ok (Parsed (JsonObject b)) /\
        (blogs b = BlogsNotArray \/
         exists entries, blogs b = BlogsArray entries /\ has_null entries = true))).
Proof.
  open_state s.
  crunch idtac; eexists; (split; [reflexivity |]);
    first [ left; reflexivity
          | right; split; [reflexivity |];
            first [ left; reflexivity
                  | right; split;
                    [ apply String.eqb_neq; assumption
                    | do 2 eexists; split; [first [eassumption | reflexivity] |];
                      first [ left; assumption
                            | right; eexists; split; eassumption ] ] ] ].
Qed.

(** X17.  A click on the save control touches nothing but [apiKey] and the
    notifications: no request, no overlay, the articles, the table and the
    blog selector as before; and when the page has no [#apiKey] input the
    handler throws and leaves the whole state as it was. *)
Theorem saveApiKey_touches_only_the_key w s :
  let s' := exec (saveApiKey_click w) s in
  articles s' = articles s /\ tbody s' = tbody s /\ blogSelect s' = blogSelect s /\
  overlays s' = overlays s /\ trace s' = trace s /\
  (apiKeyInput s = None ->
   saveApiKey_click w s = (Thrown (Error (null_property_message w "value")), s)).
Proof.
  open_state s. destruct key_input; run; repeat split; intros; discriminate.
Qed.

(** X18.  The key that was saved is the key that is sent: after a click on the
    save control with a non-empty input, a blog refresh sends one request,
    with that value as [api_key]. *)
Theorem saved_key_is_sent w s value :
  apiKeyInput s = Some value ->
  value <> "" ->
  trace (exec (refreshBlogs w) (exec (saveApiKey_click w) s)) =
  trace s ++
  [Call_showLoading "Refreshing blogs...";
   Call_fetch {| url := "/api/blogs"; method := "POST"; body := ApiKeyBody value |};
   Call_hideLoading].
Proof.
  intros I K. open_state s. subst key_input. apply String.eqb_neq in K.
  run. rewrite K.
  crunch idtac; rewrite <- ?app_assoc; reflexivity.
Qed.

Lemma saved_key_is_sent_witness :
  apiKeyInput (page_with_article "") = Some "secret" /\
  "secret" <> "" /\
  network_calls
    (trace (exec (refreshBlogs sample_world)
              (exec (saveApiKey_click sample_world) (page_with_article "")))) = 1.
Proof.
  split; [reflexivity |]. split; [discriminate |].
  rewrite (saved_key_is_sent sample_world (page_with_article "") "secret" eq_refl
             ltac:(discriminate)).
  reflexivity.
Defined.

(** X19.  After a [showLoading] made while an overlay is showing,
    [hideLoading] removes the oldest overlay, not the new one: the overlay
    of the later call stays on the page. *)
Theorem hideLoading_removes_the_oldest m s first rest :
  overlays s = first :: rest ->
  overlays (exec hideLoading (exec (showLoading m) s)) = rest ++ [m].
Proof.
  intros O. open_state s. subst ovs. run. reflexivity.
Qed.

Lemma hideLoading_removes_the_oldest_witness :
  overlays (exec (showLoading "Refreshing blogs...") initial_state)
    = ["Refreshing blogs..."] /\
  overlays (exec hideLoading
              (exec (showLoading "Fetching articles...")
                 (exec (showLoading "Refreshing blogs...") initial_state)))
    = ["Fetching articles..."].
Proof.
  split; [reflexivity |].
  exact (hideLoading_removes_the_oldest "Fetching articles..."
           (exec (showLoading "Refreshing blogs...") initial_state)
           "Refreshing blogs..." [] eq_refl).
Defined.

Lemma overlapping_runs_leave_no_overlay_witness :
  every_show_hidden
    [ShowLoading "Refreshing blogs..."; ShowLoading "Fetching articles...";
     HideLoading; HideLoading; HideLoading] = true /\
  overlay_count initial_state = 0 /\
  overlay_count
    (run_calls [ShowLoading "Refreshing blogs..."; ShowLoading "Fetching articles...";
                HideLoading; HideLoading; HideLoading] initial_state) = 0.
Proof.
  split; [reflexivity |]. split; [reflexivity |].
  exact (overlapping_runs_leave_no_overlay
           [ShowLoading "Refreshing blogs..."; ShowLoading "Fetching articles...";
            HideLoading; HideLoading; HideLoading] initial_state eq_refl eq_refl).
Defined.

(** ** The rows and the key input *)

Lemma row_click_twice article a p :
  row_click article (row_click article (render_row a, p))
  = (render_row a, showPreview article p).
Proof. destruct p; reflexivity. Qed.

Lemma showPreview_again article p :
  showPreview article (showPreview article p) = showPreview article p.
Proof. now destruct p. Qed.

(** X20.  Clicks on a freshly rendered row.  After [n] clicks the row is
    selected exactly when [n] is odd, and highlighted exactly when
    selected; an even number of clicks gives the row back as it was
    rendered; and after any click, also one that deselects, the preview
    shows that row's article: its rewritten content if it has one, its
    original content otherwise. *)
Theorem row_clicks_parity n article a p :
  let v := row_clicks n article (render_row a, p) in
  selected (fst v) = Nat.odd n /\
  highlighted (fst v) = Nat.odd n /\
  (Nat.even n = true -> fst v = render_row a) /\
  (n <> 0 -> snd v = showPreview article p) /\
  (snd v = None <-> p = None).
Proof.
  cbv zeta.
  assert (H : forall k,
            row_clicks (2 * k) article (render_row a, p)
              = (render_row a, if Nat.eqb k 0 then p else showPreview article p)).
  { induction k as [|k IH]; [reflexivity |].
    replace (2 * S k) with (S (S (2 * k))) by lia.
    cbn [row_clicks]. rewrite IH.
    destruct (Nat.eqb k 0); rewrite row_click_twice; cbn [Nat.eqb];
      now rewrite ?showPreview_again. }
  destruct (Nat.Even_or_Odd n) as [[k ->] | [k ->]].
  - rewrite H. replace (Nat.odd (2 * k)) with false
      by (symmetry; rewrite <- Nat.negb_even, Nat.even_mul; reflexivity).
    cbn [fst snd]. repeat split; try reflexivity.
    + intros N. destruct k; [lia | reflexivity].
    + destruct (Nat.eqb k 0); [tauto |]. destruct p; [discriminate | tauto].
    + intros ->. now destruct (Nat.eqb k 0).
  - replace (2 * k + 1) with (S (2 * k)) by lia.
    cbn [row_clicks]. rewrite H.
    replace (Nat.odd (S (2 * k))) with true
      by (symmetry; rewrite Nat.odd_succ, Nat.even_mul; reflexivity).
    replace (Nat.even (S (2 * k))) with false
      by (symmetry; rewrite Nat.even_succ, <- Nat.negb_even, Nat.even_mul; reflexivity).
    cbn [row_click fst snd]. repeat split; try reflexivity; try discriminate.
    + intros _. destruct (Nat.eqb k 0); now rewrite ?showPreview_again.
    + destruct (Nat.eqb k 0), p; cbn; intros; discriminate || reflexivity.
    + intros ->. now destruct (Nat.eqb k 0).
Qed.

(** X21.  The show/hide control of the key.  One click makes the input a
    password input unless it was one, in which case it becomes a text
    input; from then on clicks alternate between the two, so a third click
    gives what the first gave, and two clicks give the type back when it
    was one of the two. *)
Theorem toggleApiKey_alternates type :
  toggleApiKey_click (toggleApiKey_click (toggleApiKey_click type))
    = toggleApiKey_click type /\
  (forall t, type = Some t ->
     toggleApiKey_click type = Some "text" /\ t = "password" \/
     toggleApiKey_click type = Some "password" /\ t <> "password") /\
  (type = Some "password" \/ type = Some "text" ->
   toggleApiKey_click (toggleApiKey_click type) = type).
Proof.
  repeat split.
  - destruct type as [t|]; [| reflexivity]. cbn.
    now destruct (String.eqb t "password").
  - intros t ->. cbn. destruct (String.eqb_spec t "password"); [left | right]; tauto.
  - intros [-> | ->]; reflexivity.
Qed.

(** X22.  Re-rendering the table discards the selection: whatever rows were
    selected before, no row is selected or highlighted afterwards. *)
Theorem updateArticlesTable_discards_selection s old :
  tbody s = Some old ->
  exists rows,
    tbody (exec updateArticlesTable s) = Some rows /\
    Forall (fun r => selected r = false /\ highlighted r = false) rows.
Proof.
  intros T. open_state s. subst table. run.
  eexists; split; [reflexivity |].
  apply Forall_forall. intros r I. apply in_map_iff in I.
  destruct I as [a [<- _]]. split; reflexivity.
Qed.

Lemma updateArticlesTable_discards_selection_witness :
  tbody (page_with_article "") = Some [toggleArticleSelection (render_row article_A)] /\
  selected (toggleArticleSelection (render_row article_A)) = true /\
  exists rows,
    tbody (exec updateArticlesTable (page_with_article "")) = Some rows /\
    Forall (fun r => selected r = false /\ highlighted r = false) rows.
Proof.
  split; [reflexivity |]. split; [reflexivity |].
  exact (updateArticlesTable_discards_selection (page_with_article "") _ eq_refl).
Defined.

(** X24.  A blog refresh that fails while it rebuilds the options.  The
    selector is emptied first.  With a [blogs] that is not an array nothing
    is appended: the selector stays empty, and the notification shows the
    TypeError of the call of [forEach].  With an array that holds a [null]
    entry the blogs before the first such entry have got their option, the
    later ones have not, and the notification shows the TypeError of the
    read of [id]. *)
Theorem refreshBlogs_failed_rebuild w s ok b old :
  apiKey s <> "" ->
  answer w (blogs_request (apiKey s)) = Response ok (Parsed (JsonObject b)) ->
  blogSelect s = Some old ->
  let s' := exec (refreshBlogs w) s in
  (blogs b = BlogsNotArray ->
   blogSelect s' = Some [] /\
   notifications s' =
     notifications s ++
     [error_notification (not_a_function_message w "data.blogs.forEach")]) /\
  (forall entries,
     blogs b = BlogsArray entries -> has_null entries = true ->
     blogSelect s' = Some (map blog_option (before_null entries)) /\
     notifications s' =
       notifications s ++ [error_notification (null_property_message w "id")]).
Proof.
  intros K E O s'. subst s'. open_state s. subst select. apply String.eqb_neq in K.
  run. rewrite K. run. rewrite E. run.
  split.
  - intros B. rewrite B. crunch idtac; split; reflexivity.
  - intros entries B N. rewrite B. run.
    rewrite append_options_run, N. crunch idtac; split; reflexivity.
Qed.

Lemma refreshBlogs_failed_rebuild_witness :
  apiKey (page_with_article "") <> "" /\
  blogSelect (page_with_article "") = Some [mkBlogOption "3" "Old blog"] /\
  blogSelect
    (exec (refreshBlogs
             (answering (Response true
                (Parsed (JsonObject
                   (mkBody None
                      (BlogsArray [Some (mkBlog "7" "News"); None;
                                   Some (mkBlog "8" "Notes")])
                      None))))))
          (page_with_article ""))
    = Some [mkBlogOption "7" "News"].
Proof.
  split; [discriminate |]. split; [reflexivity |].
  exact (proj1 (proj2 (refreshBlogs_failed_rebuild
                         (answering (Response true
                            (Parsed (JsonObject
                               (mkBody None
                                  (BlogsArray [Some (mkBlog "7" "News"); None;
                                               Some (mkBlog "8" "Notes")])
                                  None)))))
                         (page_with_article "") true _ _
                         ltac:(discriminate) eq_refl eq_refl)
                  _ eq_refl eq_refl)).
Defined.

(** X25.  In a page without the blog selector, a blog refresh reports
    success for every body that carries a [blogs], also one that is not an
    array: [forEach] is called only when the selector is there. *)
Theorem refreshBlogs_without_selector w s ok b :
  apiKey s <> "" ->
  answer w (blogs_request (apiKey s)) = Response ok (Parsed (JsonObject b)) ->
  blogs b <> BlogsMissing ->
  blogSelect s = None ->
  let s' := exec (refreshBlogs w) s in
  blogSelect s' = None /\
  notifications s' =
    notifications s ++ [success_notification "Blogs refreshed successfully"].
Proof.
  intros K E B O s'. subst s'. open_state s. subst select. apply String.eqb_neq in K.
  run. rewrite K. run. rewrite E. run.
  destruct (blogs b); [congruence | |]; crunch idtac; split; reflexivity.
Qed.

Lemma refreshBlogs_without_selector_witness :
  apiKey (set_blogSelect None (page_with_article "")) <> "" /\
  notifications
    (exec (refreshBlogs
             (answering (Response true
                (Parsed (JsonObject (mkBody None BlogsNotArray None))))))
          (set_blogSelect None (page_with_article "")))
    = [success_notification "Blogs refreshed successfully"].
Proof.
  split; [discriminate |].
  exact (proj2 (refreshBlogs_without_selector
                  (answering (Response true
                     (Parsed (JsonObject (mkBody None BlogsNotArray None)))))
                  (set_blogSelect None (page_with_article "")) true _
                  ltac:(discriminate) eq_refl ltac:(discriminate) eq_refl)).
Defined.

End Workflows.
